(** * Order ledger of the event-service marketplace backend

    A shallow embedding of [apps/orders] (models, serializers, views and
    utils) together with the parts of [apps/users] and [apps/events] that the
    order views read, followed by the properties of the order lifecycle and
    of the payment reconciliation.

    Conventions of the embedding.
    - A [Decimal] with two decimal places is the integer number of its
      hundredths ([Z]); comparisons, sums and differences are then exact, as
      they are for [decimal.Decimal] within the ten digits the columns hold.
    - A date is its ordinal ([Z]); [timezone.now().date()] is the parameter
      [today] of the operations that read the clock.
    - A table with a primary key is a [gmap] from the key; [User.objects]
      is a list, because [get_user_by_slug_or_404] depends on iteration
      order.
    - A view returns [Ok (db', response)] or [Err e]; a view that fails
      writes nothing. *)

From stdpp Require Import base option list gmap strings.

Local Open Scope Z_scope.
Local Open Scope string_scope.

(** ** Scalars *)

Definition Decimal : Type := Z.
Definition Date : Type := Z.
Definition Time : Type := Z.

(** Python's [x or d] on a [Decimal]: zero is falsy. *)
Definition decimal_or (x d : Decimal) : Decimal :=
  if decide (x = 0) then d else x.

(** ** apps/users/models.py *)

Inductive UserType := Customer | Seller | Admin.

#[global] Instance UserType_eq_dec : EqDecision UserType.
Proof. solve_decision. Defined.

Record User := mkUser {
  user_id : string;
  first_name : string;
  last_name : string;
  user_type : UserType;
}.

(** ** apps/events/models.py *)

Record EventService := mkEventService {
  service_id : string;
  service_type : string;
}.

Record Event := mkEvent {
  event_id : string;
  event_seller : string;
}.

Record EventServiceDetail := mkEventServiceDetail {
  detail_event : string;
  detail_service : string;
  price : Decimal;
  is_available : bool;
}.

Definition SERVICE_CHOICES : list (string * string) :=
  [ ("photography", "Photography");
    ("videography", "Videography");
    ("hall_booking", "Hall Booking");
    ("sound_system", "Sound System (DJ)");
    ("lighting", "Lighting");
    ("chef_booking", "Chef Booking");
    ("catering", "Catering") ].

Fixpoint choice_display (choices : list (string * string)) (v : string) : string :=
  match choices with
  | [] => v
  | (k, d) :: rest => if decide (k = v) then d else choice_display rest v
  end.

(** Django's [get_FOO_display]: the label of the stored value, or the value
    itself when it is not one of the choices. *)
Definition get_service_type_display (s : EventService) : string :=
  choice_display SERVICE_CHOICES (service_type s).

(** ** apps/orders/models.py *)

Inductive Status := pending | accepted | completed | cancelled.

#[global] Instance Status_eq_dec : EqDecision Status.
Proof. solve_decision. Defined.

(** One entry of the [selected_services] JSON list. *)
Record ServiceLine := mkServiceLine {
  line_id : string;
  line_name : string;
  line_price : Decimal;
}.

Record ServiceOrder := mkServiceOrder {
  order_id : string;
  seller : string;
  buyer : string;
  event : string;
  buyer_name : string;
  event_date : Date;
  event_time : Time;
  location : string;
  selected_services : list ServiceLine;
  seller_agreed : bool;
  status : Status;
  total_amount : Decimal;
  discount_price : Decimal;
  advance_paid : Decimal;
  is_fully_paid : bool;
  full_payment_date : option Date;
  invoice_file : option string;
}.

(** Attribute assignment, one setter per attribute the code assigns. *)

Definition set_seller_agreed (v : bool) (o : ServiceOrder) : ServiceOrder :=
  mkServiceOrder (order_id o) (seller o) (buyer o) (event o) (buyer_name o)
    (event_date o) (event_time o) (location o) (selected_services o)
    v (status o) (total_amount o) (discount_price o) (advance_paid o)
    (is_fully_paid o) (full_payment_date o) (invoice_file o).

Definition set_status (v : Status) (o : ServiceOrder) : ServiceOrder :=
  mkServiceOrder (order_id o) (seller o) (buyer o) (event o) (buyer_name o)
    (event_date o) (event_time o) (location o) (selected_services o)
    (seller_agreed o) v (total_amount o) (discount_price o) (advance_paid o)
    (is_fully_paid o) (full_payment_date o) (invoice_file o).

Definition set_discount_price (v : Decimal) (o : ServiceOrder) : ServiceOrder :=
  mkServiceOrder (order_id o) (seller o) (buyer o) (event o) (buyer_name o)
    (event_date o) (event_time o) (location o) (selected_services o)
    (seller_agreed o) (status o) (total_amount o) v (advance_paid o)
    (is_fully_paid o) (full_payment_date o) (invoice_file o).

Definition set_advance_paid (v : Decimal) (o : ServiceOrder) : ServiceOrder :=
  mkServiceOrder (order_id o) (seller o) (buyer o) (event o) (buyer_name o)
    (event_date o) (event_time o) (location o) (selected_services o)
    (seller_agreed o) (status o) (total_amount o) (discount_price o) v
    (is_fully_paid o) (full_payment_date o) (invoice_file o).

Definition set_is_fully_paid (v : bool) (o : ServiceOrder) : ServiceOrder :=
  mkServiceOrder (order_id o) (seller o) (buyer o) (event o) (buyer_name o)
    (event_date o) (event_time o) (location o) (selected_services o)
    (seller_agreed o) (status o) (total_amount o) (discount_price o)
    (advance_paid o) v (full_payment_date o) (invoice_file o).

Definition set_full_payment_date (v : option Date) (o : ServiceOrder) : ServiceOrder :=
  mkServiceOrder (order_id o) (seller o) (buyer o) (event o) (buyer_name o)
    (event_date o) (event_time o) (location o) (selected_services o)
    (seller_agreed o) (status o) (total_amount o) (discount_price o)
    (advance_paid o) (is_fully_paid o) v (invoice_file o).

Definition set_invoice_file (v : option string) (o : ServiceOrder) : ServiceOrder :=
  mkServiceOrder (order_id o) (seller o) (buyer o) (event o) (buyer_name o)
    (event_date o) (event_time o) (location o) (selected_services o)
    (seller_agreed o) (status o) (total_amount o) (discount_price o)
    (advance_paid o) (is_fully_paid o) (full_payment_date o) v.

(** [if not self.full_payment_date: self.full_payment_date = today]; a
    [date] object is always truthy, so only [None] is stamped. *)
Definition stamp_full_payment_date (today : Date) (o : ServiceOrder) : ServiceOrder :=
  match full_payment_date o with
  | None => set_full_payment_date (Some today) o
  | Some _ => o
  end.

(** [ServiceOrder.accept] *)
Definition accept (by_seller : bool) (o : ServiceOrder) : ServiceOrder :=
  if by_seller then set_status accepted (set_seller_agreed true o) else o.

(** [ServiceOrder.apply_seller_update]; the record returned is the one
    [self.save()] writes. *)
Definition apply_seller_update (today : Date)
    (discount_price_arg advance_paid_arg : option Decimal)
    (self : ServiceOrder) : ServiceOrder :=
  let discount :=
    match discount_price_arg with
    | None => decimal_or (discount_price self) 0
    | Some d => d
    end in
  let advance :=
    match advance_paid_arg with
    | None => decimal_or (advance_paid self) 0
    | Some a => a
    end in
  let discount := if decide (discount < 0) then 0 else discount in
  let advance := if decide (advance < 0) then 0 else advance in
  let discount :=
    if decide (discount > total_amount self) then total_amount self else discount in
  let self := set_advance_paid advance (set_discount_price discount self) in
  let net_total := total_amount self - discount_price self in
  let net_total := if decide (net_total < 0) then 0 else net_total in
  if decide (advance_paid self >= net_total ∧ net_total > 0) then
    stamp_full_payment_date today (set_is_fully_paid true self)
  else if decide (net_total = 0) then
    stamp_full_payment_date today (set_is_fully_paid true self)
  else
    set_is_fully_paid false self.

(** [ServiceOrder.remaining_amount] *)
Definition remaining_amount (self : ServiceOrder) : Decimal :=
  let rem := total_amount self
             - decimal_or (discount_price self) 0
             - decimal_or (advance_paid self) 0 in
  if decide (rem > 0) then rem else 0.

(** ** apps/orders/serializers.py *)

(** [ServiceOrderSerializer.get_net_total] *)
Definition get_net_total (obj : ServiceOrder) : Decimal :=
  let total := decimal_or (total_amount obj) 0 in
  let discount := decimal_or (discount_price obj) 0 in
  total - discount.

(** ** Errors and results *)

(** The three error classes of the request boundary (HTTP 404, 403 and 400)
    and the two exceptions that no view catches: the one [objects.get]
    raises on several matches, and [decimal.InvalidOperation], which saving
    raises for an amount beyond the ten digits of its column. *)
Inductive Error :=
  | NotFoundError
  | ForbiddenError
  | ValidationError
  | MultipleObjectsReturned
  | InvalidOperation.

#[global] Instance Error_eq_dec : EqDecision Error.
Proof. solve_decision. Defined.

Inductive Result (A : Type) :=
  | Ok (a : A)
  | Err (e : Error).

Arguments Ok {A} a.
Arguments Err {A} e.

#[global] Instance Result_ret : MRet Result := λ A a, Ok a.
#[global] Instance Result_bind : MBind Result := λ A B f r,
  match r with
  | Ok a => f a
  | Err e => Err e
  end.

(** [if c: raise e] *)
Definition raise_if (c : bool) (e : Error) : Result unit :=
  if c then Err e else Ok ().

(** ** Request payloads *)

(** A key of a JSON payload: absent, present with [null], or present with a
    value. *)
Inductive Field (A : Type) :=
  | Omitted
  | Null
  | Value (a : A).

Arguments Omitted {A}.
Arguments Null {A}.
Arguments Value {A} a.

(** [d.get(key, default)] on a dictionary whose values may be [None]. *)
Definition field_get {A} (f : Field A) (default : option A) : option A :=
  match f with
  | Omitted => default
  | Null => None
  | Value a => Some a
  end.

(** Payload of the seller update, as parsed. *)
Record SellerUpdateData := mkSellerUpdateData {
  data_discount_price : Field Decimal;
  data_advance_paid : Field Decimal;
  data_invoice_file : Field string;
  data_full_payment_date : Field Date;
}.

(** [validated_data] of [UpdateServiceSellerOrderSerializer]: the two
    decimal fields do not allow [null], so a key is absent or holds a
    number; the two model-derived fields are nullable. *)
Record SellerValidatedData := mkSellerValidatedData {
  v_discount_price : option Decimal;
  v_advance_paid : option Decimal;
  v_invoice_file : Field string;
  v_full_payment_date : Field Date;
}.

(** [DecimalField(max_digits=10, decimal_places=2, min_value=Decimal("0.00"),
    required=False)]: at most eight digits before the point, not negative,
    not [null]. *)
Definition MAX_DECIMAL : Decimal := 10 ^ 10.

Definition run_decimal_field (f : Field Decimal) : Result (option Decimal) :=
  match f with
  | Omitted => Ok None
  | Null => Err ValidationError
  | Value v =>
      if decide (0 <= v ∧ v < MAX_DECIMAL) then Ok (Some v) else Err ValidationError
  end.

(** Field validation of the seller update. A [Value] of [invoice_file] or
    [full_payment_date] stands for one the field lets through: a date, and
    a URL or the blank string, which [blank=True] on the column admits
    without looking at it. *)
Definition run_seller_fields (data : SellerUpdateData) : Result SellerValidatedData :=
  discount ← run_decimal_field (data_discount_price data);
  advance ← run_decimal_field (data_advance_paid data);
  mret (mkSellerValidatedData discount advance
          (data_invoice_file data) (data_full_payment_date data)).

(** [UpdateServiceSellerOrderSerializer.validate]; the serializer is always
    built with an instance. *)
Definition seller_validate (request_user : User) (instance : ServiceOrder)
    (data : SellerValidatedData) : Result SellerValidatedData :=
  _ ← raise_if (negb (bool_decide (user_type request_user = Seller))) ValidationError;
  let total_amount := total_amount instance in
  let discount := default (discount_price instance) (v_discount_price data) in
  _ ← raise_if (bool_decide (discount > total_amount)) ValidationError;
  mret data.

(** [UpdateServiceSellerOrderSerializer.update] *)
Definition seller_serializer_update (today : Date) (instance : ServiceOrder)
    (validated_data : SellerValidatedData) : ServiceOrder :=
  let discount := default (discount_price instance) (v_discount_price validated_data) in
  let advance := default (advance_paid instance) (v_advance_paid validated_data) in
  let invoice_file := field_get (v_invoice_file validated_data) None in
  let full_payment_date :=
    field_get (v_full_payment_date validated_data) (full_payment_date instance) in
  let instance :=
    match invoice_file with
    | Some f => set_invoice_file (Some f) instance
    | None => instance
    end in
  let instance :=
    match full_payment_date with
    | Some d => set_full_payment_date (Some d) instance
    | None => instance
    end in
  apply_seller_update today (Some discount) (Some advance) instance.

(** [BuyerUpdateOrderSerializer]: a choice among the two statuses a buyer
    may set; with [partial=True] the key may be absent. *)
Definition run_buyer_status (f : Field string) : Result (option Status) :=
  match f with
  | Omitted => Ok None
  | Null => Err ValidationError
  | Value s =>
      if decide (s = "cancelled") then Ok (Some cancelled)
      else if decide (s = "completed") then Ok (Some completed)
      else Err ValidationError
  end.

(** [validated_data] of [CreateServiceOrderSerializer]. *)
Record CreateValidatedData := mkCreateValidatedData {
  c_event_date : Date;
  c_event_time : Time;
  c_location : string;
  c_selected_services : list string;
}.

(** ** The database *)

Record DB := mkDB {
  users : list User;
  events : gmap string Event;
  services : gmap string EventService;
  service_details : list EventServiceDetail;
  orders : gmap string ServiceOrder;
}.

Definition set_orders (v : gmap string ServiceOrder) (db : DB) : DB :=
  mkDB (users db) (events db) (services db) (service_details db) v.

(** [order.save()] *)
Definition save (o : ServiceOrder) (db : DB) : DB :=
  set_orders (<[order_id o := o]> (orders db)) db.

(** [order.delete()] *)
Definition delete_order (o : ServiceOrder) (db : DB) : DB :=
  set_orders (delete (order_id o) (orders db)) db.

(** Body of a response. [RespOrder o] is the serialized order [o]; the
    display fields the serializer adds to it (the slugs and names of the two
    users, the title, brand and logo of the event) are read from the user
    and event tables and are not repeated here. *)
Inductive Response :=
  | RespOrder (o : ServiceOrder)
  | RespSuccess (msg : string)
  | RespNoContent.

(** ** The views *)

(** [EventServiceDetail.objects.get(...)] returns the single matching row
    and raises when there is none or more than one. *)
Inductive GetResult (A : Type) :=
  | Found (a : A)
  | DoesNotExist
  | MultipleObjects.

Arguments Found {A} a.
Arguments DoesNotExist {A}.
Arguments MultipleObjects {A}.

Definition objects_get {A} (matching : list A) : GetResult A :=
  match matching with
  | [] => DoesNotExist
  | [a] => Found a
  | _ :: _ :: _ => MultipleObjects
  end.

(** [generate_order_id]: the first random draw that is not yet a primary
    key; [draws] is the finite prefix of the draws that is looked at. *)
Definition generate_order_id (draws : list string)
    (table : gmap string ServiceOrder) : option string :=
  find (λ new_id, bool_decide (table !! new_id = None)) draws.

Section Views.

(** [django.utils.text.slugify] *)
Variable slugify : string → string.

(** [User.get_profile_slug] *)
Definition get_profile_slug (u : User) : string :=
  slugify (first_name u) +:+ "-" +:+ slugify (last_name u).

(** [User.full_name] *)
Definition full_name (u : User) : string :=
  first_name u +:+ " " +:+ last_name u.

(** [apps/orders/utils.py] *)
Definition get_user_by_slug_or_404 (db : DB) (slug : string) (role : UserType)
    : Result User :=
  match find (λ user, bool_decide (get_profile_slug user = slug))
             (filter (λ user, user_type user = role) (users db)) with
  | Some user => Ok user
  | None => Err NotFoundError
  end.

(** [get_object_or_404(ServiceOrder, id=order_id, <party>=user)] *)
Definition get_order_or_404 (db : DB) (oid : string)
    (party : ServiceOrder → string) (user : User) : Result ServiceOrder :=
  match orders db !! oid with
  | Some order =>
      if decide (party order = user_id user) then Ok order else Err NotFoundError
  | None => Err NotFoundError
  end.

(** [get_object_or_404(Event, id=event_id)]; the identifier is read from the
    raw payload and may be missing. *)
Definition get_event_or_404 (db : DB) (eid : option string) : Result Event :=
  match eid with
  | Some i =>
      match events db !! i with
      | Some e => Ok e
      | None => Err NotFoundError
      end
  | None => Err NotFoundError
  end.

(** The rows [EventServiceDetail.objects.get(event=event,
    service__service_type=service_type, is_available=True)] selects from. *)
Definition detail_matches (db : DB) (event : Event) (service_type_arg : string)
    (d : EventServiceDetail) : bool :=
  bool_decide (detail_event d = event_id event)
  && match services db !! detail_service d with
     | Some s => bool_decide (service_type s = service_type_arg)
     | None => false
     end
  && is_available d.

Definition get_service_detail (db : DB) (event : Event) (service_type_arg : string)
    : GetResult EventServiceDetail :=
  objects_get (List.filter (detail_matches db event service_type_arg)
                 (service_details db)).

(** The dictionary appended for a resolved service. *)
Definition service_line (db : DB) (d : EventServiceDetail) : ServiceLine :=
  match services db !! detail_service d with
  | Some s => mkServiceLine (service_id s) (get_service_type_display s) (price d)
  | None => mkServiceLine (detail_service d) "" (price d)
  end.

(** The loop of [CreateServiceOrderView.create] over the requested service
    types, from the accumulators it has reached. *)
Fixpoint process_selected_services (db : DB) (event : Event)
    (selected : list string) (total_amount : Decimal)
    (service_details : list ServiceLine) : Result (Decimal * list ServiceLine) :=
  match selected with
  | [] => Ok (total_amount, service_details)
  | service_type :: rest =>
      match get_service_detail db event service_type with
      | Found service_detail =>
          process_selected_services db event rest
            (total_amount + price service_detail)
            (service_details ++ [service_line db service_detail])
      | DoesNotExist =>
          process_selected_services db event rest total_amount service_details
      | MultipleObjects => Err MultipleObjectsReturned
      end
  end.

(** [CreateServiceOrderView.create]. [validated] is what
    [serializer.is_valid] leaves in [validated_data], [None] when it
    raises; [new_id] is the key [generate_order_id] returns when the row
    is built. [objects.create] saves the row, and [total_amount] is a
    column of ten digits with two decimals: a sum that needs more raises
    [InvalidOperation] when it is written. *)
Definition CreateServiceOrderView_create (db : DB) (request_user : User)
    (buyer_slug : string) (eid : option string)
    (validated : option CreateValidatedData) (new_id : string)
    : Result (DB * Response) :=
  buyer_user ← get_user_by_slug_or_404 db buyer_slug Customer;
  _ ← raise_if (negb (bool_decide (user_id request_user = user_id buyer_user)))
        ForbiddenError;
  data ← from_option Ok (Err ValidationError) validated;
  event ← get_event_or_404 db eid;
  '(total_amount, service_details) ←
    process_selected_services db event (c_selected_services data) 0 [];
  let order :=
    mkServiceOrder new_id (event_seller event) (user_id buyer_user) (event_id event)
      (full_name buyer_user) (c_event_date data) (c_event_time data) (c_location data)
      service_details false pending total_amount 0 0 false None None in
  _ ← raise_if (bool_decide (MAX_DECIMAL <= Z.abs total_amount)) InvalidOperation;
  mret (save order db, RespOrder order).

(** [UpdateServiceOrderView.get_object] *)
Definition UpdateServiceOrderView_get_object (db : DB) (request_user : User)
    (buyer_slug oid : string) : Result ServiceOrder :=
  buyer_user ← get_user_by_slug_or_404 db buyer_slug Customer;
  order ← get_order_or_404 db oid buyer buyer_user;
  _ ← raise_if (negb (bool_decide (buyer order = user_id request_user)))
        ForbiddenError;
  _ ← raise_if (negb (bool_decide (status order = pending ∨ status order = accepted)))
        ForbiddenError;
  mret order.

(** [UpdateServiceOrderView.update] *)
Definition UpdateServiceOrderView_update (today : Date) (db : DB)
    (request_user : User) (buyer_slug oid : string)
    (status_field : Field string) : Result (DB * Response) :=
  order ← UpdateServiceOrderView_get_object db request_user buyer_slug oid;
  new_status ← run_buyer_status status_field;
  match new_status with
  | Some cancelled =>
      let order := set_status cancelled order in
      Ok (save order db, RespOrder order)
  | Some completed =>
      let order := set_status completed order in
      let net_total := total_amount order - decimal_or (discount_price order) 0 in
      let order :=
        if decide (net_total <= 0 ∨ advance_paid order >= net_total) then
          stamp_full_payment_date today (set_is_fully_paid true order)
        else order in
      Ok (save order db, RespOrder order)
  | _ => Err ValidationError
  end.

(** [DeleteServiceOrderView.get_object] *)
Definition DeleteServiceOrderView_get_object (db : DB) (request_user : User)
    (buyer_slug oid : string) : Result ServiceOrder :=
  buyer_user ← get_user_by_slug_or_404 db buyer_slug Customer;
  order ← get_order_or_404 db oid buyer buyer_user;
  _ ← raise_if (bool_decide (buyer order ≠ user_id request_user
                             ∧ seller order ≠ user_id request_user))
        ForbiddenError;
  mret order.

(** [DeleteServiceOrderView.destroy]; the inherited [destroy] looks the
    object up again and deletes it. *)
Definition DeleteServiceOrderView_destroy (db : DB) (request_user : User)
    (buyer_slug oid : string) : Result (DB * Response) :=
  order ← DeleteServiceOrderView_get_object db request_user buyer_slug oid;
  if decide (buyer order = user_id request_user ∧ status order = pending) then
    let order := set_status cancelled order in
    Ok (save order db, RespSuccess "Order cancelled")
  else if decide (seller order = user_id request_user) then
    instance ← DeleteServiceOrderView_get_object db request_user buyer_slug oid;
    Ok (delete_order instance db, RespNoContent)
  else Err ForbiddenError.

(** [AcceptOrderView.update] *)
Definition AcceptOrderView_update (db : DB) (request_user : User)
    (seller_slug oid : string) : Result (DB * Response) :=
  seller_user ← get_user_by_slug_or_404 db seller_slug Seller;
  order ← get_order_or_404 db oid seller seller_user;
  _ ← raise_if (negb (bool_decide (seller order = user_id request_user)))
        ForbiddenError;
  let order := set_status accepted (set_seller_agreed true order) in
  mret (save order db, RespOrder order).

(** [SellerUpdateServiceOrderView.get_object] *)
Definition SellerUpdateServiceOrderView_get_object (db : DB) (request_user : User)
    (seller_slug oid : string) : Result ServiceOrder :=
  seller_user ← get_user_by_slug_or_404 db seller_slug Seller;
  order ← get_order_or_404 db oid seller seller_user;
  _ ← raise_if (negb (bool_decide (seller order = user_id request_user)))
        ForbiddenError;
  _ ← raise_if (bool_decide (status order = cancelled)) ForbiddenError;
  mret order.

(** [SellerUpdateServiceOrderView.update]: field validation, then
    [validate], then the serializer's [update]. *)
Definition SellerUpdateServiceOrderView_update (today : Date) (db : DB)
    (request_user : User) (seller_slug oid : string)
    (data : SellerUpdateData) : Result (DB * Response) :=
  order ← SellerUpdateServiceOrderView_get_object db request_user seller_slug oid;
  fields ← run_seller_fields data;
  validated_data ← seller_validate request_user order fields;
  let order := seller_serializer_update today order validated_data in
  mret (save order db, RespOrder order).

End Views.

(** ** The ledger as a transition system *)

Inductive Request :=
  | CreateOrder (request_user : User) (buyer_slug : string) (eid : option string)
      (validated : option CreateValidatedData) (draws : list string)
  | BuyerUpdate (today : Date) (request_user : User) (buyer_slug oid : string)
      (status_field : Field string)
  | DeleteOrder (request_user : User) (buyer_slug oid : string)
  | AcceptOrder (request_user : User) (seller_slug oid : string)
  | SellerUpdate (today : Date) (request_user : User) (seller_slug oid : string)
      (data : SellerUpdateData).

Section Ledger.

Variable slugify : string → string.

(** The view a request is routed to (apps/orders/urls.py). A creation
    whose identifier loop finds no free key among [draws] has not
    answered yet: [None]. *)
Definition dispatch (db : DB) (req : Request) : option (Result (DB * Response)) :=
  match req with
  | CreateOrder request_user buyer_slug eid validated draws =>
      new_id ← generate_order_id draws (orders db);
      Some (CreateServiceOrderView_create slugify db request_user buyer_slug
              eid validated new_id)
  | BuyerUpdate today request_user buyer_slug oid status_field =>
      Some (UpdateServiceOrderView_update slugify today db request_user
              buyer_slug oid status_field)
  | DeleteOrder request_user buyer_slug oid =>
      Some (DeleteServiceOrderView_destroy slugify db request_user buyer_slug oid)
  | AcceptOrder request_user seller_slug oid =>
      Some (AcceptOrderView_update slugify db request_user seller_slug oid)
  | SellerUpdate today request_user seller_slug oid data =>
      Some (SellerUpdateServiceOrderView_update slugify today db request_user
              seller_slug oid data)
  end.

(** The database after a request: what the view wrote, or the database
    as it was when the view failed. *)
Definition step (db : DB) (req : Request) : DB :=
  match dispatch db req with
  | Some (Ok (db', _)) => db'
  | _ => db
  end.

Definition run (db : DB) (reqs : list Request) : DB := foldl step db reqs.

End Ledger.

(** ** Derived quantities of the specification *)

(** The net total [apply_seller_update] computes before its fully-paid
    check. *)
Definition net_total (o : ServiceOrder) : Decimal :=
  Z.max 0 (total_amount o - discount_price o).

Definition fully_paid_rule (o : ServiceOrder) : Prop :=
  net_total o = 0 ∨ advance_paid o >= net_total o.

#[global] Instance fully_paid_rule_dec o : Decision (fully_paid_rule o).
Proof. unfold fully_paid_rule. apply _. Defined.


(** What [UpdateServiceOrderView.update] makes of an order it completes. *)
Definition completed_order (today : Date) (o : ServiceOrder) : ServiceOrder :=
  let order := set_status completed o in
  if decide (total_amount order - decimal_or (discount_price order) 0 <= 0
             ∨ advance_paid order >= total_amount order - decimal_or (discount_price order) 0)
  then stamp_full_payment_date today (set_is_fully_paid true order)
  else order.

(** The row [CreateServiceOrderView.create] inserts. *)
Definition created_order (new_id : string) (event : Event) (buyer_user : User)
    (buyer_full_name : string) (data : CreateValidatedData)
    (total : Decimal) (lines : list ServiceLine) : ServiceOrder :=
  mkServiceOrder new_id (event_seller event) (user_id buyer_user) (event_id event)
    buyer_full_name (c_event_date data) (c_event_time data) (c_location data)
    lines false pending total 0 0 false None None.

(** The record [UpdateServiceSellerOrderSerializer.update] hands to
    [apply_seller_update]. *)
Definition seller_assigned (o : ServiceOrder) (vd : SellerValidatedData) : ServiceOrder :=
  let o1 :=
    match field_get (v_invoice_file vd) None with
    | Some f => set_invoice_file (Some f) o
    | None => o
    end in
  match field_get (v_full_payment_date vd) (full_payment_date o) with
  | Some d => set_full_payment_date (Some d) o1
  | None => o1
  end.

(** How one request can change a stored order. *)
Definition order_change (req : Request) (o o' : ServiceOrder) : Prop :=
  match req with
  | CreateOrder _ _ _ _ _ => o' = o
  | BuyerUpdate today _ _ _ _ =>
      o' = o
      ∨ ((status o = pending ∨ status o = accepted)
         ∧ (o' = set_status cancelled o ∨ o' = completed_order today o))
  | DeleteOrder _ _ _ => o' = o ∨ (status o = pending ∧ o' = set_status cancelled o)
  | AcceptOrder _ _ _ => o' = o ∨ o' = set_status accepted (set_seller_agreed true o)
  | SellerUpdate today _ _ _ data =>
      o' = o
      ∨ ∃ vd, run_seller_fields data = Ok vd
              ∧ status o ≠ cancelled
              ∧ default (discount_price o) (v_discount_price vd) <= total_amount o
              ∧ o' = seller_serializer_update today o vd
  end.

(** A request that supplies a [full_payment_date] of its own. *)
Definition supplies_date (req : Request) : Prop :=
  match req with
  | SellerUpdate _ _ _ _ data =>
      match data_full_payment_date data with
      | Value _ => True
      | _ => False
      end
  | _ => False
  end.

(** ** Invariants of the stored data *)

(** Every row is stored under its primary key. *)
Definition keys_ok (db : DB) : Prop :=
  ∀ k o, orders db !! k = Some o → order_id o = k.

(** [MinValueValidator(0)] on [EventServiceDetail.price]. *)
Definition catalog_ok (db : DB) : Prop :=
  Forall (λ d, 0 <= price d) (service_details db).

Definition order_ok (o : ServiceOrder) : Prop :=
  0 <= total_amount o
  ∧ 0 <= discount_price o <= total_amount o
  ∧ 0 <= advance_paid o
  ∧ (is_fully_paid o = true → fully_paid_rule o).

Definition db_ok (db : DB) : Prop :=
  keys_ok db ∧ catalog_ok db ∧ ∀ k o, orders db !! k = Some o → order_ok o.

(** ** Catalogue resolution, as the specification words it *)

(** The available line item a token resolves to, if it resolves. *)
Definition resolve_token (db : DB) (event : Event) (token : string)
    : option EventServiceDetail :=
  match get_service_detail db event token with
  | Found d => Some d
  | _ => None
  end.

Definition resolve (db : DB) (event : Event) (tokens : list string)
    : list EventServiceDetail :=
  omap (resolve_token db event) tokens.

(** No token matches more than one available line item of the event. *)
Definition unambiguous (db : DB) (event : Event) (tokens : list string) : Prop :=
  Forall (λ t, get_service_detail db event t ≠ MultipleObjects) tokens.

Definition prices_total (ds : list EventServiceDetail) : Decimal :=
  foldr (λ d acc, price d + acc) 0 ds.

(** ** Sample data *)

Definition plain_slugify (s : string) : string := s.

Definition alice : User := mkUser "Cust00000001" "alice" "khan" Customer.
Definition bob : User := mkUser "Sell00000001" "bob" "roy" Seller.
Definition carol : User := mkUser "Cust00000002" "carol" "das" Customer.

Definition sample_event : Event := mkEvent "EVT00001" "Sell00000001".

(** One seller with one event that offers catering (available) and
    photography (not available); no orders yet. *)
Definition sample_db : DB :=
  mkDB [alice; bob; carol]
    {[ "EVT00001" := sample_event ]}
    {[ "SVC00001" := mkEventService "SVC00001" "catering";
       "SVC00002" := mkEventService "SVC00002" "photography" ]}
    [ mkEventServiceDetail "EVT00001" "SVC00001" 50000 true;
      mkEventServiceDetail "EVT00001" "SVC00002" 30000 false ]
    ∅.

Definition sample_booking : CreateValidatedData :=
  mkCreateValidatedData 739000 64800 "Dhaka" ["catering"; "unknown_token"].

Definition sample_create : Request :=
  CreateOrder alice "alice-khan" (Some "EVT00001") (Some sample_booking) ["ORD00001"].

(** The database after Alice's order of 500.00 has been created. *)
Definition booked_db : DB := run plain_slugify sample_db [sample_create].

Definition sample_order : ServiceOrder :=
  created_order "ORD00001" sample_event alice "alice khan" sample_booking 50000
    [mkServiceLine "SVC00001" "Catering" 50000].

Definition no_update : SellerUpdateData :=
  mkSellerUpdateData Omitted Omitted Omitted Omitted.

Definition set_data_discount (v : Decimal) (d : SellerUpdateData) : SellerUpdateData :=
  mkSellerUpdateData (Value v) (data_advance_paid d) (data_invoice_file d)
    (data_full_payment_date d).

Definition set_data_advance (v : Decimal) (d : SellerUpdateData) : SellerUpdateData :=
  mkSellerUpdateData (data_discount_price d) (Value v) (data_invoice_file d)
    (data_full_payment_date d).

(** The seller records an advance of 500.00 on day 739001. *)
Definition paid_db : DB :=
  run plain_slugify booked_db
    [SellerUpdate 739001 bob "bob-roy" "ORD00001" (set_data_advance 50000 no_update)].

(** Later the seller lowers the advance to 200.00 and the buyer completes. *)
Definition later_requests : list Request :=
  [ SellerUpdate 739005 bob "bob-roy" "ORD00001" (set_data_advance 20000 no_update);
    BuyerUpdate 739006 alice "alice-khan" "ORD00001" (Value "completed") ].

(** The order of 500.00 with an advance of 200.00, still pending. *)
Definition part_paid_db : DB :=
  run plain_slugify booked_db
    [SellerUpdate 739001 bob "bob-roy" "ORD00001" (set_data_advance 20000 no_update)].

(** The buyer has cancelled, respectively completed, the order. *)
Definition cancelled_db : DB :=
  run plain_slugify booked_db
    [BuyerUpdate 739001 alice "alice-khan" "ORD00001" (Value "cancelled")].

Definition completed_db : DB :=
  run plain_slugify booked_db
    [BuyerUpdate 739001 alice "alice-khan" "ORD00001" (Value "completed")].

(** The seller has attached an invoice. *)
Definition invoiced_db : DB :=
  run plain_slugify booked_db
    [SellerUpdate 739001 bob "bob-roy" "ORD00001"
       (mkSellerUpdateData Omitted Omitted (Value "https://files.example/inv-1.pdf")
          Omitted)].

(** ** Read-only serializer fields *)

(** [obj.seller], [obj.buyer]: the row the foreign key points to. The
    columns are not nullable; [None] stands for the exception the access
    raises when the row is gone. *)
Definition related_user (db : DB) (pk : string) : option User :=
  find (λ u, bool_decide (user_id u = pk)) (users db).

(** [ServiceOrderSerializer.get_seller_slug] and [get_buyer_slug] *)
Definition get_seller_slug (slugify : string → string) (db : DB)
    (obj : ServiceOrder) : option string :=
  get_profile_slug slugify <$> related_user db (seller obj).

Definition get_buyer_slug (slugify : string → string) (db : DB)
    (obj : ServiceOrder) : option string :=
  get_profile_slug slugify <$> related_user db (buyer obj).

(** No two customers share a profile slug. *)
Definition customer_slugs_unique (slugify : string → string) (db : DB) : Prop :=
  ∀ u v, u ∈ users db → v ∈ users db →
         user_type u = Customer → user_type v = Customer →
         get_profile_slug slugify u = get_profile_slug slugify v →
         user_id u = user_id v.

(** The attributes no view assigns after creation. *)
Definition same_identity (o o' : ServiceOrder) : Prop :=
  order_id o' = order_id o ∧ seller o' = seller o ∧ buyer o' = buyer o
  ∧ event o' = event o ∧ buyer_name o' = buyer_name o
  ∧ event_date o' = event_date o ∧ event_time o' = event_time o
  ∧ location o' = location o
  ∧ selected_services o' = selected_services o
  ∧ total_amount o' = total_amount o.

(** How the status and the agreement flag go together on a stored order. *)
Definition agreement_ok (o : ServiceOrder) : Prop :=
  (status o = pending → seller_agreed o = false)
  ∧ (status o = accepted → seller_agreed o = true).

(** The request a buyer or seller addresses to the row [k], if any. *)
Definition addressed (req : Request) : option string :=
  match req with
  | CreateOrder _ _ _ _ _ => None
  | BuyerUpdate _ _ _ oid _ => Some oid
  | DeleteOrder _ _ oid => Some oid
  | AcceptOrder _ _ oid => Some oid
  | SellerUpdate _ _ _ oid _ => Some oid
  end.

(** ** More sample data *)

(** A second customer named like Alice, listed ahead of her. *)
Definition early_alice : User := mkUser "Cust00000000" "alice" "khan" Customer.

(** [booked_db] after the namesake has joined. *)
Definition shadowed_db : DB :=
  mkDB (early_alice :: users booked_db) (events booked_db) (services booked_db)
    (service_details booked_db) (orders booked_db).

(** [booked_db] after the seller has raised the price of catering. *)
Definition repriced_db : DB :=
  mkDB (users booked_db) (events booked_db) (services booked_db)
    [ mkEventServiceDetail "EVT00001" "SVC00001" 90000 true;
      mkEventServiceDetail "EVT00001" "SVC00002" 30000 false ]
    (orders booked_db).

(** The seller has deleted the order. *)
Definition emptied_db : DB :=
  run plain_slugify booked_db [DeleteOrder bob "alice-khan" "ORD00001"].

(** A catalogue with two services of the type catering, both offered
    and available for the event. *)
Definition ambiguous_db : DB :=
  mkDB [alice; bob; carol]
    {[ "EVT00001" := sample_event ]}
    {[ "SVC00001" := mkEventService "SVC00001" "catering";
       "SVC00002" := mkEventService "SVC00002" "photography";
       "SVC00003" := mkEventService "SVC00003" "catering" ]}
    [ mkEventServiceDetail "EVT00001" "SVC00001" 50000 true;
      mkEventServiceDetail "EVT00001" "SVC00002" 30000 true;
      mkEventServiceDetail "EVT00001" "SVC00003" 45000 true ]
    ∅.

(** The status leaves [pending] for good and the agreement stays. *)
Definition moved_on (o o' : ServiceOrder) : Prop :=
  (status o ≠ pending → status o' ≠ pending)
  ∧ (seller_agreed o = true → seller_agreed o' = true).

(** Two answers that agree up to the catalogue. *)
Definition same_answer (r1 r2 : Result (DB * Response)) : Prop :=
  match r1, r2 with
  | Ok (d1, a1), Ok (d2, a2) =>
      a1 = a2 ∧ orders d1 = orders d2 ∧ users d1 = users d2
  | Err e1, Err e2 => e1 = e2
  | _, _ => False
  end.

(** An invoice reference that is there: not [null] and not blank. *)
Definition invoice_is_set (f : option string) : Prop :=
  ∃ url, f = Some url ∧ url ≠ "".

(** A seller update that sends the blank string as [invoice_file]. *)
Definition blank_invoice : SellerUpdateData :=
  mkSellerUpdateData Omitted Omitted (Value "") Omitted.

(** ** Facts about the model methods *)

Ltac order_cases :=
  repeat (case_decide || case_match); simplify_eq/=; try done; try lia.

Lemma decimal_or_zero x : decimal_or x 0 = x.
Proof. unfold decimal_or. case_decide; lia. Qed.

Lemma apply_seller_update_discount today d a o :
  discount_price (apply_seller_update today d a o) =
  Z.min (Z.max 0 (default (discount_price o) d)) (total_amount o).
Proof.
  unfold apply_seller_update, stamp_full_payment_date.
  destruct d; rewrite ?decimal_or_zero; simpl; order_cases.
Qed.

Lemma apply_seller_update_advance today d a o :
  advance_paid (apply_seller_update today d a o) =
  Z.max 0 (default (advance_paid o) a).
Proof.
  unfold apply_seller_update, stamp_full_payment_date.
  destruct a; rewrite ?decimal_or_zero; simpl; order_cases.
Qed.

(** What [apply_seller_update] leaves alone. *)
Lemma apply_seller_update_frame today d a o :
  let o' := apply_seller_update today d a o in
  order_id o' = order_id o ∧ seller o' = seller o ∧ buyer o' = buyer o
  ∧ status o' = status o ∧ total_amount o' = total_amount o
  ∧ invoice_file o' = invoice_file o ∧ selected_services o' = selected_services o
  ∧ seller_agreed o' = seller_agreed o.
Proof.
  unfold apply_seller_update, stamp_full_payment_date; simpl.
  repeat case_decide; simpl; repeat case_match; simpl; done.
Qed.

Lemma apply_seller_update_fully_paid today d a o :
  let o' := apply_seller_update today d a o in
  is_fully_paid o' = true ↔ fully_paid_rule o'.
Proof.
  unfold fully_paid_rule, net_total.
  unfold apply_seller_update, stamp_full_payment_date; simpl.
  repeat case_decide; simpl; repeat case_match; simpl; split; intros; try done; lia.
Qed.

Lemma apply_seller_update_date today d a o :
  let o' := apply_seller_update today d a o in
  full_payment_date o' =
  match full_payment_date o with
  | Some set => Some set
  | None => if is_fully_paid o' then Some today else None
  end.
Proof.
  unfold apply_seller_update, stamp_full_payment_date; simpl.
  repeat case_decide; simpl; repeat case_match; simplify_eq/=; done.
Qed.

(** ** Facts about results *)

Lemma bind_Ok {A B} (r : Result A) (k : A → Result B) (b : B) :
  r ≫= k = Ok b → ∃ a, r = Ok a ∧ k a = Ok b.
Proof. destruct r as [a|e]; simpl; [eauto | discriminate]. Qed.

Lemma raise_if_Ok c e u : raise_if c e = Ok u → c = false.
Proof. destruct c; [discriminate | done]. Qed.

Lemma raise_if_false e : raise_if false e = Ok ().
Proof. done. Qed.

(** Splits a successful sequence of checks into its successful steps. *)
Ltac inv_ok :=
  repeat match goal with
  | H : _ ≫= _ = Ok _ |- _ =>
      let a := fresh "a" in
      let Ha := fresh "Hstep" in
      apply bind_Ok in H as (a & Ha & H)
  | H : raise_if _ _ = Ok _ |- _ => apply raise_if_Ok in H
  | H : negb _ = false |- _ => apply negb_false_iff in H
  | H : bool_decide _ = true |- _ => apply bool_decide_eq_true in H
  | H : bool_decide _ = false |- _ => apply bool_decide_eq_false in H
  | H : mret ?x = Ok ?y |- _ => change (Ok x = Ok y) in H
  | H : Ok ?x = Ok ?y |- _ => assert (x = y) by congruence; clear H
  end.

(** ** Facts about the lookups of the views *)

Section ViewFacts.

Variable slugify : string → string.

Lemma get_order_or_404_Ok db oid party u o :
  get_order_or_404 db oid party u = Ok o →
  orders db !! oid = Some o ∧ party o = user_id u.
Proof.
  unfold get_order_or_404. destruct (orders db !! oid) as [o0|]; [|done].
  case_decide; [|done]. intros [= ->]. done.
Qed.

Lemma UpdateServiceOrderView_get_object_Ok db u slug oid o :
  UpdateServiceOrderView_get_object slugify db u slug oid = Ok o →
  orders db !! oid = Some o ∧ buyer o = user_id u
  ∧ (status o = pending ∨ status o = accepted).
Proof.
  unfold UpdateServiceOrderView_get_object. intros H. inv_ok. subst.
  apply get_order_or_404_Ok in Hstep0 as [? ?]. done.
Qed.

Lemma DeleteServiceOrderView_get_object_Ok db u slug oid o :
  DeleteServiceOrderView_get_object slugify db u slug oid = Ok o →
  orders db !! oid = Some o
  ∧ (buyer o = user_id u ∨ seller o = user_id u).
Proof.
  unfold DeleteServiceOrderView_get_object. intros H. inv_ok. subst.
  apply get_order_or_404_Ok in Hstep0 as [? ?]. split; [done|].
  destruct (decide (buyer o = user_id u)); [by left|].
  destruct (decide (seller o = user_id u)); [by right|].
  exfalso. apply Hstep1. done.
Qed.

Lemma SellerUpdateServiceOrderView_get_object_Ok db u slug oid o :
  SellerUpdateServiceOrderView_get_object slugify db u slug oid = Ok o →
  orders db !! oid = Some o ∧ seller o = user_id u ∧ status o ≠ cancelled.
Proof.
  unfold SellerUpdateServiceOrderView_get_object. intros H. inv_ok. subst.
  apply get_order_or_404_Ok in Hstep0 as [? ?]. done.
Qed.

Lemma seller_validate_Ok u o vd vd' :
  seller_validate u o vd = Ok vd' →
  vd' = vd ∧ user_type u = Seller
  ∧ default (discount_price o) (v_discount_price vd) <= total_amount o.
Proof.
  unfold seller_validate. intros H. inv_ok. subst. repeat split; [done|lia].
Qed.

Lemma run_decimal_field_Ok f r :
  run_decimal_field f = Ok r →
  match r with
  | Some v => f = Value v ∧ 0 <= v < MAX_DECIMAL
  | None => f = Omitted
  end.
Proof.
  destruct f as [| |v]; simpl; [by intros [= <-] | done |].
  case_decide; [|done]. intros [= <-]. done.
Qed.

Lemma run_seller_fields_Ok data vd :
  run_seller_fields data = Ok vd →
  run_decimal_field (data_discount_price data) = Ok (v_discount_price vd)
  ∧ run_decimal_field (data_advance_paid data) = Ok (v_advance_paid vd)
  ∧ v_invoice_file vd = data_invoice_file data
  ∧ v_full_payment_date vd = data_full_payment_date data.
Proof.
  unfold run_seller_fields. intros H. inv_ok. subst. done.
Qed.

End ViewFacts.

(** ** What a successful view wrote *)

Lemma save_lookup o1 db k :
  orders (save o1 db) !! k =
  if decide (order_id o1 = k) then Some o1 else orders db !! k.
Proof. unfold save; simpl. rewrite lookup_insert. by repeat case_decide. Qed.

Lemma delete_order_lookup o1 db k :
  orders (delete_order o1 db) !! k =
  if decide (order_id o1 = k) then None else orders db !! k.
Proof. unfold delete_order; simpl. rewrite lookup_delete. by repeat case_decide. Qed.

Lemma run_buyer_status_Ok f s :
  run_buyer_status f = Ok s →
  (f = Omitted ∧ s = None)
  ∨ (f = Value "cancelled" ∧ s = Some cancelled)
  ∨ (f = Value "completed" ∧ s = Some completed).
Proof.
  destruct f as [| |v]; simpl; [intros [= <-]; by left | done |].
  repeat case_decide; subst; intros [= <-]; auto.
Qed.

Section WrittenRows.

Variable slugify : string → string.

Lemma UpdateServiceOrderView_update_Ok today db u slug oid f db' r :
  UpdateServiceOrderView_update slugify today db u slug oid f = Ok (db', r) →
  ∃ o o1,
    UpdateServiceOrderView_get_object slugify db u slug oid = Ok o
    ∧ db' = save o1 db ∧ r = RespOrder o1
    ∧ ((f = Value "cancelled" ∧ o1 = set_status cancelled o)
       ∨ (f = Value "completed" ∧ o1 = completed_order today o)).
Proof.
  unfold UpdateServiceOrderView_update. intros H.
  apply bind_Ok in H as (o & Hget & H).
  apply bind_Ok in H as (s & Hs & H).
  apply run_buyer_status_Ok in Hs as [[-> ->]|[[-> ->]|[-> ->]]]; [done| |].
  - injection H as <- <-. exists o, (set_status cancelled o). naive_solver.
  - injection H as <- <-. exists o, (completed_order today o).
    unfold completed_order. naive_solver.
Qed.

Lemma DeleteServiceOrderView_destroy_Ok db u slug oid db' r :
  DeleteServiceOrderView_destroy slugify db u slug oid = Ok (db', r) →
  ∃ o,
    DeleteServiceOrderView_get_object slugify db u slug oid = Ok o
    ∧ ((buyer o = user_id u ∧ status o = pending
        ∧ db' = save (set_status cancelled o) db ∧ r = RespSuccess "Order cancelled")
       ∨ (¬ (buyer o = user_id u ∧ status o = pending) ∧ seller o = user_id u
          ∧ db' = delete_order o db ∧ r = RespNoContent)).
Proof.
  unfold DeleteServiceOrderView_destroy. intros H.
  apply bind_Ok in H as (o & Hget & H). exists o. split; [done|].
  rewrite Hget in H. simpl in H.
  destruct (decide (buyer o = user_id u ∧ status o = pending)) as [[? ?]|?].
  - left. by simplify_eq.
  - right. destruct (decide (seller o = user_id u)); by simplify_eq.
Qed.

Lemma AcceptOrderView_update_Ok db u slug oid db' r :
  AcceptOrderView_update slugify db u slug oid = Ok (db', r) →
  ∃ o,
    orders db !! oid = Some o ∧ seller o = user_id u
    ∧ db' = save (set_status accepted (set_seller_agreed true o)) db
    ∧ r = RespOrder (set_status accepted (set_seller_agreed true o)).
Proof.
  unfold AcceptOrderView_update. intros H. inv_ok.
  apply get_order_or_404_Ok in Hstep0 as [? ?].
  simplify_eq. eauto.
Qed.

Lemma SellerUpdateServiceOrderView_update_Ok today db u slug oid data db' r :
  SellerUpdateServiceOrderView_update slugify today db u slug oid data = Ok (db', r) →
  ∃ o vd,
    SellerUpdateServiceOrderView_get_object slugify db u slug oid = Ok o
    ∧ run_seller_fields data = Ok vd
    ∧ default (discount_price o) (v_discount_price vd) <= total_amount o
    ∧ db' = save (seller_serializer_update today o vd) db
    ∧ r = RespOrder (seller_serializer_update today o vd).
Proof.
  unfold SellerUpdateServiceOrderView_update. intros H.
  apply bind_Ok in H as (o & Hget & H).
  apply bind_Ok in H as (vd & Hvd & H).
  apply bind_Ok in H as (vd' & Hval & H).
  apply seller_validate_Ok in Hval as (-> & _ & Hle).
  injection H as <- <-. eauto 10.
Qed.

Lemma CreateServiceOrderView_create_Ok db u slug eid validated new_id db' r :
  CreateServiceOrderView_create slugify db u slug eid validated new_id = Ok (db', r) →
  ∃ b data ev total lines,
    get_user_by_slug_or_404 slugify db slug Customer = Ok b
    ∧ user_id u = user_id b
    ∧ validated = Some data
    ∧ get_event_or_404 db eid = Ok ev
    ∧ process_selected_services db ev (c_selected_services data) 0 [] = Ok (total, lines)
    ∧ db' = save (created_order new_id ev b (full_name b) data total lines) db
    ∧ r = RespOrder (created_order new_id ev b (full_name b) data total lines).
Proof.
  unfold CreateServiceOrderView_create. intros H.
  apply bind_Ok in H as (b & Hb & H).
  apply bind_Ok in H as (? & Hu & H).
  apply bind_Ok in H as (data & Hd & H).
  apply bind_Ok in H as (ev & He & H).
  apply bind_Ok in H as ([total lines] & Hp & H).
  inv_ok. destruct validated as [data0|]; [|done]. simpl in Hd.
  simplify_eq. exists b, data, ev, total, lines. done.
Qed.

End WrittenRows.

(** ** Facts about the serializer and the completion *)

Lemma stamp_full_payment_date_frame today o :
  let o' := stamp_full_payment_date today o in
  order_id o' = order_id o ∧ seller o' = seller o ∧ buyer o' = buyer o
  ∧ status o' = status o ∧ total_amount o' = total_amount o
  ∧ discount_price o' = discount_price o ∧ advance_paid o' = advance_paid o
  ∧ is_fully_paid o' = is_fully_paid o ∧ invoice_file o' = invoice_file o
  ∧ full_payment_date o' = Some (default today (full_payment_date o)).
Proof.
  unfold stamp_full_payment_date.
  destruct (full_payment_date o) eqn:E; simpl; rewrite ?E; done.
Qed.

Lemma completed_order_frame today o :
  let o' := completed_order today o in
  order_id o' = order_id o ∧ seller o' = seller o ∧ buyer o' = buyer o
  ∧ status o' = completed ∧ total_amount o' = total_amount o
  ∧ discount_price o' = discount_price o ∧ advance_paid o' = advance_paid o
  ∧ invoice_file o' = invoice_file o.
Proof.
  unfold completed_order. case_decide; [|done].
  pose proof (stamp_full_payment_date_frame today
                (set_is_fully_paid true (set_status completed o))) as Hf.
  simpl in Hf. destruct_and!. split_and!; congruence.
Qed.

(** The completion forces the flag exactly under the fully-paid rule. *)
Lemma completed_order_payment today o :
  let o' := completed_order today o in
  (fully_paid_rule o →
     is_fully_paid o' = true
     ∧ full_payment_date o' = Some (default today (full_payment_date o)))
  ∧ (¬ fully_paid_rule o →
     is_fully_paid o' = is_fully_paid o
     ∧ full_payment_date o' = full_payment_date o).
Proof.
  unfold completed_order, fully_paid_rule, net_total. simpl.
  rewrite decimal_or_zero.
  case_decide as Hc.
  - pose proof (stamp_full_payment_date_frame today
                  (set_is_fully_paid true (set_status completed o))) as Hf.
    simpl in Hf. destruct_and!. split; [by split|].
    intros Hn. exfalso. apply Hn. lia.
  - split; [|done]. intros Hr. exfalso. apply Hc. lia.
Qed.

Lemma seller_serializer_update_unfold today o vd :
  seller_serializer_update today o vd =
  apply_seller_update today
    (Some (default (discount_price o) (v_discount_price vd)))
    (Some (default (advance_paid o) (v_advance_paid vd)))
    (seller_assigned o vd).
Proof.
  unfold seller_serializer_update, seller_assigned.
  destruct (field_get (v_invoice_file vd) None),
    (field_get (v_full_payment_date vd) (full_payment_date o)); done.
Qed.

Lemma seller_assigned_frame o vd :
  let o' := seller_assigned o vd in
  order_id o' = order_id o ∧ seller o' = seller o ∧ buyer o' = buyer o
  ∧ status o' = status o ∧ total_amount o' = total_amount o
  ∧ discount_price o' = discount_price o ∧ advance_paid o' = advance_paid o
  ∧ is_fully_paid o' = is_fully_paid o
  ∧ invoice_file o' = match v_invoice_file vd with
                      | Value f => Some f
                      | _ => invoice_file o
                      end
  ∧ full_payment_date o' = match v_full_payment_date vd with
                           | Value d => Some d
                           | _ => full_payment_date o
                           end.
Proof.
  unfold seller_assigned. cbv zeta.
  destruct (v_invoice_file vd), (v_full_payment_date vd); simpl;
    destruct (full_payment_date o) eqn:E; simpl; rewrite ?E; done.
Qed.

Lemma seller_serializer_update_frame today o vd :
  let o' := seller_serializer_update today o vd in
  order_id o' = order_id o ∧ seller o' = seller o ∧ buyer o' = buyer o
  ∧ status o' = status o ∧ total_amount o' = total_amount o
  ∧ invoice_file o' = match v_invoice_file vd with
                      | Value f => Some f
                      | _ => invoice_file o
                      end.
Proof.
  simpl. rewrite seller_serializer_update_unfold.
  pose proof (apply_seller_update_frame today
    (Some (default (discount_price o) (v_discount_price vd)))
    (Some (default (advance_paid o) (v_advance_paid vd)))
    (seller_assigned o vd)) as Ha.
  pose proof (seller_assigned_frame o vd) as Hs. simpl in *.
  destruct Ha as (-> & -> & -> & -> & -> & -> & _). destruct_and!. done.
Qed.

(** ** One request, one row *)

Lemma generate_order_id_fresh draws table new_id :
  generate_order_id draws table = Some new_id → table !! new_id = None.
Proof.
  unfold generate_order_id. intros H. apply find_some in H as [_ H].
  by apply bool_decide_eq_true in H.
Qed.

Lemma order_change_refl req o : order_change req o o.
Proof. destruct req; simpl; auto. Qed.

Section LedgerFacts.

Variable slugify : string → string.

(** The order views write to the order table only. *)
Lemma step_static db req :
  users (step slugify db req) = users db
  ∧ events (step slugify db req) = events db
  ∧ services (step slugify db req) = services db
  ∧ service_details (step slugify db req) = service_details db.
Proof.
  unfold step.
  destruct (dispatch slugify db req) as [[[db' r]|e]|] eqn:Hd; [|done..].
  destruct req; simpl in Hd.
  - destruct (generate_order_id draws (orders db)); simplify_eq/=.
    apply CreateServiceOrderView_create_Ok in Hd
      as (? & ? & ? & ? & ? & _ & _ & _ & _ & _ & -> & _). done.
  - simplify_eq. apply UpdateServiceOrderView_update_Ok in Hd
      as (? & ? & _ & -> & _). done.
  - simplify_eq. apply DeleteServiceOrderView_destroy_Ok in Hd
      as (? & _ & [(_ & _ & -> & _)|(_ & _ & -> & _)]); done.
  - simplify_eq. apply AcceptOrderView_update_Ok in Hd
      as (? & _ & _ & -> & _). done.
  - simplify_eq. apply SellerUpdateServiceOrderView_update_Ok in Hd
      as (? & ? & _ & _ & _ & -> & _). done.
Qed.

(** A row found after a request is the row found before, changed as the
    request allows, or a row the request created under a free key. *)
Lemma step_lookup db req k o' :
  keys_ok db →
  orders (step slugify db req) !! k = Some o' →
  (∃ o, orders db !! k = Some o ∧ order_change req o o' ∧ order_id o' = k)
  ∨ (orders db !! k = None
     ∧ ∃ ev b nm data total lines,
         o' = created_order k ev b nm data total lines
         ∧ process_selected_services db ev (c_selected_services data) 0 []
           = Ok (total, lines)).
Proof.
  intros Hkeys. unfold step.
  assert (Hsame : orders db !! k = Some o' →
    ∃ o, orders db !! k = Some o ∧ order_change req o o' ∧ order_id o' = k).
  { intros H. exists o'. split; [done|]. split; [apply order_change_refl|].
    by apply Hkeys. }
  destruct (dispatch slugify db req) as [[[db' r]|e]|] eqn:Hd; [|by left; auto..].
  destruct req; simpl in Hd.
  - destruct (generate_order_id draws (orders db)) as [new_id|] eqn:Hid;
      simplify_eq/=.
    apply generate_order_id_fresh in Hid.
    apply CreateServiceOrderView_create_Ok in Hd
      as (b & data & ev & total & lines & _ & _ & _ & _ & Hp & -> & _).
    rewrite save_lookup. simpl. case_decide as Hk; [|by left; auto].
    subst k. intros [= <-]. right. split; [done|]. eauto 10.
  - simplify_eq. apply UpdateServiceOrderView_update_Ok in Hd
      as (o & o1 & Hget & -> & _ & Hcase).
    apply UpdateServiceOrderView_get_object_Ok in Hget as (Ho & _ & Hst).
    pose proof (Hkeys _ _ Ho) as Hid.
    assert (order_id o1 = oid) as Hid1.
    { destruct Hcase as [[_ ->]|[_ ->]]; [done|].
      rewrite (proj1 (completed_order_frame today o)). done. }
    rewrite save_lookup. case_decide as Hk; [|by left; auto].
    intros [= <-]. left. exists o. rewrite <- Hk, Hid1. split; [done|].
    split; [|done]. simpl. right. split; [done|].
    destruct Hcase as [[_ ->]|[_ ->]]; auto.
  - simplify_eq. apply DeleteServiceOrderView_destroy_Ok in Hd
      as (o & Hget & Hcase).
    apply DeleteServiceOrderView_get_object_Ok in Hget as (Ho & _).
    pose proof (Hkeys _ _ Ho) as Hid.
    destruct Hcase as [(_ & Hst & -> & _)|(_ & _ & -> & _)].
    + rewrite save_lookup. simpl. case_decide as Hk; [|by left; auto].
      intros [= <-]. left. exists o. subst k. rewrite Hid. simpl. auto.
    + rewrite delete_order_lookup. case_decide; [done|by left; auto].
  - simplify_eq. apply AcceptOrderView_update_Ok in Hd
      as (o & Ho & _ & -> & _).
    pose proof (Hkeys _ _ Ho) as Hid.
    rewrite save_lookup. simpl. case_decide as Hk; [|by left; auto].
    intros [= <-]. left. exists o. subst k. rewrite Hid. simpl. auto.
  - simplify_eq. apply SellerUpdateServiceOrderView_update_Ok in Hd
      as (o & vd & Hget & Hvd & Hle & -> & _).
    apply SellerUpdateServiceOrderView_get_object_Ok in Hget as (Ho & _ & Hst).
    pose proof (Hkeys _ _ Ho) as Hid.
    assert (order_id (seller_serializer_update today o vd) = oid) as Hid1.
    { rewrite (proj1 (seller_serializer_update_frame today o vd)). done. }
    rewrite save_lookup. case_decide as Hk; [|by left; auto].
    intros [= <-]. left. exists o. rewrite <- Hk, Hid1. split; [done|].
    split; [|done]. simpl. right. exists vd. done.
Qed.

Lemma step_keys_ok db req : keys_ok db → keys_ok (step slugify db req).
Proof.
  intros Hkeys k o' H. apply step_lookup in H; [|done].
  destruct H as [(o & _ & _ & Hid)|(_ & H)]; [done|].
  destruct H as (? & ? & ? & ? & ? & ? & -> & _). done.
Qed.

End LedgerFacts.

(** * The claims *)

(** ** Payment reconciliation *)

(** C1. After [apply_seller_update], and hence after every seller update
    the view accepts, [is_fully_paid] is true exactly when the net total
    is zero or the advance covers it, the net total being
    [max 0 (total_amount - discount_price)] of the values stored after
    clamping. With a total of 1000.00 and a discount of 1000.00 the order
    is fully paid whatever the advance; with a total of 500.00, an advance
    of 500.00 and no discount it is fully paid. Amounts are in hundredths. *)
Theorem seller_financials_fully_paid_rule :
  (∀ today d a o,
     is_fully_paid (apply_seller_update today d a o) = true
     ↔ (net_total (apply_seller_update today d a o) = 0
        ∨ advance_paid (apply_seller_update today d a o)
          >= net_total (apply_seller_update today d a o)))
  ∧ (∀ slugify today db u slug oid data db' r,
       SellerUpdateServiceOrderView_update slugify today db u slug oid data
         = Ok (db', r) →
       ∃ o', r = RespOrder o' ∧ orders db' !! order_id o' = Some o'
             ∧ (is_fully_paid o' = true
                ↔ (net_total o' = 0 ∨ advance_paid o' >= net_total o')))
  ∧ (∀ today a o,
       total_amount o = 100000 →
       is_fully_paid (apply_seller_update today (Some 100000) a o) = true)
  ∧ (∀ today o,
       total_amount o = 50000 →
       is_fully_paid (apply_seller_update today (Some 0) (Some 50000) o) = true).
Proof.
  split_and!.
  - intros. apply apply_seller_update_fully_paid.
  - intros * H. apply SellerUpdateServiceOrderView_update_Ok in H
      as (o & vd & _ & _ & _ & -> & ->).
    eexists. split; [done|]. split; [by rewrite save_lookup, decide_True|].
    rewrite seller_serializer_update_unfold. apply apply_seller_update_fully_paid.
  - intros today a o Ht. apply apply_seller_update_fully_paid.
    left. unfold net_total.
    rewrite apply_seller_update_discount.
    rewrite (proj1 (proj2 (proj2 (proj2 (proj2 (apply_seller_update_frame _ _ _ _)))))).
    simpl. lia.
  - intros today o Ht. apply apply_seller_update_fully_paid.
    right. unfold net_total.
    rewrite apply_seller_update_discount, apply_seller_update_advance.
    rewrite (proj1 (proj2 (proj2 (proj2 (proj2 (apply_seller_update_frame _ _ _ _)))))).
    simpl. lia.
Qed.

Lemma seller_financials_fully_paid_rule_witness :
  ∃ db' o',
    SellerUpdateServiceOrderView_update plain_slugify 739001 booked_db bob
      "bob-roy" "ORD00001" (set_data_advance 50000 no_update)
      = Ok (db', RespOrder o')
    ∧ total_amount o' = 50000
    ∧ is_fully_paid o' = true
    ∧ (net_total o' = 0 ∨ advance_paid o' >= net_total o').
Proof.
  destruct (SellerUpdateServiceOrderView_update plain_slugify 739001 booked_db bob
      "bob-roy" "ORD00001" (set_data_advance 50000 no_update))
    as [[db' r]|e] eqn:E; [|vm_compute in E; discriminate].
  destruct (proj1 (proj2 seller_financials_fully_paid_rule) _ _ _ _ _ _ _ _ _ E)
    as (o' & -> & _ & Hiff).
  exists db', o'. split; [reflexivity|].
  assert (total_amount o' = 50000 ∧ is_fully_paid o' = true) as [Ht Hp].
  { vm_compute in E. injection E as _ <-. split; reflexivity. }
  split; [exact Ht|]. split; [exact Hp|]. apply Hiff, Hp.
Defined.

(** C2. [apply_seller_update] first raises a negative discount or advance
    to zero and then lowers the discount to the total; so, on an order whose
    total is not negative, every seller update that is not rejected leaves
    [0 <= discount_price <= total_amount] and [0 <= advance_paid]. *)
Theorem seller_financials_clamping :
  (∀ today d a o,
     discount_price (apply_seller_update today d a o)
       = Z.min (Z.max 0 (default (discount_price o) d)) (total_amount o)
     ∧ advance_paid (apply_seller_update today d a o)
       = Z.max 0 (default (advance_paid o) a))
  ∧ (∀ today d a o,
       0 <= total_amount o →
       0 <= discount_price (apply_seller_update today d a o)
            <= total_amount (apply_seller_update today d a o)
       ∧ 0 <= advance_paid (apply_seller_update today d a o))
  ∧ (∀ slugify today db u slug oid data db' r o,
       orders db !! oid = Some o →
       0 <= total_amount o →
       SellerUpdateServiceOrderView_update slugify today db u slug oid data
         = Ok (db', r) →
       ∃ o', r = RespOrder o' ∧ orders db' !! order_id o' = Some o'
             ∧ 0 <= discount_price o' <= total_amount o'
             ∧ 0 <= advance_paid o').
Proof.
  assert (Hmodel : ∀ today d a o,
       0 <= total_amount o →
       0 <= discount_price (apply_seller_update today d a o)
            <= total_amount (apply_seller_update today d a o)
       ∧ 0 <= advance_paid (apply_seller_update today d a o)).
  { intros today d a o Ht.
    rewrite apply_seller_update_discount, apply_seller_update_advance.
    rewrite (proj1 (proj2 (proj2 (proj2 (proj2 (apply_seller_update_frame _ _ _ _)))))).
    lia. }
  split_and!.
  - intros. split; [apply apply_seller_update_discount|apply apply_seller_update_advance].
  - exact Hmodel.
  - intros * Ho Ht H. apply SellerUpdateServiceOrderView_update_Ok in H
      as (o0 & vd & Hget & _ & _ & -> & ->).
    apply SellerUpdateServiceOrderView_get_object_Ok in Hget as (Ho0 & _).
    assert (o0 = o) as -> by congruence.
    eexists. split; [done|]. split; [by rewrite save_lookup, decide_True|].
    rewrite seller_serializer_update_unfold. apply Hmodel.
    by rewrite (proj1 (proj2 (proj2 (proj2 (proj2 (seller_assigned_frame _ _)))))).
Qed.

Lemma seller_financials_clamping_witness :
  0 <= total_amount sample_order
  ∧ discount_price (apply_seller_update 739001 (Some 70000) (Some (-100)) sample_order)
    = 50000
  ∧ advance_paid (apply_seller_update 739001 (Some 70000) (Some (-100)) sample_order)
    = 0
  ∧ 0 <= discount_price (apply_seller_update 739001 (Some 70000) (Some (-100)) sample_order)
       <= total_amount (apply_seller_update 739001 (Some 70000) (Some (-100)) sample_order).
Proof.
  assert (0 <= total_amount sample_order) as Ht by (vm_compute; discriminate).
  split; [exact Ht|].
  destruct (proj1 (proj2 seller_financials_clamping) 739001 (Some 70000)
              (Some (-100)) sample_order Ht) as [Hb _].
  split; [reflexivity|]. split; [reflexivity|]. exact Hb.
Defined.

(** ** Catalogue resolution *)

Section Resolution.

Variables (db : DB) (ev : Event).

Lemma process_selected_services_resolve tokens total lines :
  unambiguous db ev tokens →
  process_selected_services db ev tokens total lines
  = Ok (total + prices_total (resolve db ev tokens),
        (lines ++ (service_line db <$> resolve db ev tokens))%list).
Proof.
  intros Hu. revert total lines.
  induction Hu as [|t ts Ht _ IH]; intros total lines; simpl.
  - by rewrite Z.add_0_r, app_nil_r.
  - unfold resolve, resolve_token in *. simpl.
    destruct (get_service_detail db ev t) as [d| |]; [| |done].
    + rewrite IH. simpl. by rewrite Z.add_assoc, <- app_assoc.
    + apply IH.
Qed.

Lemma process_selected_services_unambiguous tokens total lines r :
  process_selected_services db ev tokens total lines = Ok r →
  unambiguous db ev tokens.
Proof.
  revert total lines. induction tokens as [|t ts IH]; intros total lines; simpl.
  - constructor.
  - destruct (get_service_detail db ev t) as [d| |] eqn:E; [| |done];
      intros H; constructor; try (rewrite E; done); eapply IH, H.
Qed.

Lemma resolve_token_elem token d :
  resolve_token db ev token = Some d → d ∈ service_details db.
Proof.
  unfold resolve_token, get_service_detail, objects_get.
  destruct (List.filter _ _) as [|d0 [|? ?]] eqn:E; [done| |done].
  intros [= <-]. apply list_elem_of_In.
  eapply (proj1 (filter_In _ _ _)). rewrite E. by left.
Qed.

Lemma prices_total_nonneg tokens :
  catalog_ok db → 0 <= prices_total (resolve db ev tokens).
Proof.
  intros Hc. unfold resolve, prices_total.
  induction tokens as [|t ts IH]; simpl; [done|].
  destruct (resolve_token db ev t) as [d|] eqn:E; simpl; [|done].
  apply resolve_token_elem in E.
  unfold catalog_ok in Hc. rewrite Forall_forall in Hc.
  specialize (Hc _ E). simpl in Hc.
  apply Z.add_nonneg_nonneg; [exact Hc | exact IH].
Qed.


End Resolution.

(** ** The stored amounts stay within their bounds *)

Lemma apply_seller_update_ok today d a o :
  0 <= total_amount o → order_ok (apply_seller_update today d a o).
Proof.
  intros Ht. unfold order_ok.
  pose proof (apply_seller_update_fully_paid today d a o) as Hp. simpl in Hp.
  rewrite apply_seller_update_discount, apply_seller_update_advance.
  rewrite (proj1 (proj2 (proj2 (proj2 (proj2 (apply_seller_update_frame _ _ _ _)))))).
  split_and!; try lia. apply Hp.
Qed.

Lemma order_change_ok req o o' :
  order_ok o → order_change req o o' → order_ok o'.
Proof.
  intros (Ht & Hd & Ha & Hp) Hc.
  assert (order_ok o) as Hok by done.
  assert (order_ok (set_status cancelled o)) as Hcan by done.
  destruct req; simpl in Hc.
  - by subst.
  - destruct Hc as [->|[_ [->| ->]]]; [done|done|].
    pose proof (completed_order_frame today o) as (_ & _ & _ & _ & Ht' & Hd' & Ha' & _).
    pose proof (completed_order_payment today o) as [Hy Hn]. simpl in Hy, Hn.
    unfold order_ok, fully_paid_rule, net_total in *.
    rewrite Ht', Hd', Ha'. split_and!; try lia.
    destruct (decide (fully_paid_rule o)) as [Hr|Hr]; [done|].
    destruct (Hn Hr) as [-> _]. done.
  - by destruct Hc as [->|[_ ->]].
  - by destruct Hc as [->| ->].
  - destruct Hc as [->|(vd & _ & _ & _ & ->)]; [done|].
    rewrite seller_serializer_update_unfold. apply apply_seller_update_ok.
    by rewrite (proj1 (proj2 (proj2 (proj2 (proj2 (seller_assigned_frame _ _)))))).
Qed.

Section Invariant.

Variable slugify : string → string.

Lemma step_db_ok db req : db_ok db → db_ok (step slugify db req).
Proof.
  intros (Hk & Hc & Ho). split_and!.
  - by apply step_keys_ok.
  - unfold catalog_ok. by rewrite (proj2 (proj2 (proj2 (step_static slugify db req)))).
  - intros k o' H. apply step_lookup in H; [|done].
    destruct H as [(o & Hl & Hch & _)|(_ & H)].
    + eapply order_change_ok; [by eapply Ho|done].
    + destruct H as (ev & b & nm & data & total & lines & -> & Hp).
      pose proof (process_selected_services_unambiguous _ _ _ _ _ _ Hp) as Hu.
      rewrite (process_selected_services_resolve _ _ _ _ _ Hu) in Hp.
      injection Hp as <- _.
      pose proof (prices_total_nonneg db ev (c_selected_services data) Hc).
      unfold order_ok, fully_paid_rule, net_total. simpl. split_and!; lia.
Qed.

Lemma run_db_ok db reqs : db_ok db → db_ok (run slugify db reqs).
Proof.
  revert db. induction reqs as [|req reqs IH]; intros db Hok; simpl; [done|].
  apply IH. by apply step_db_ok.
Qed.

End Invariant.

Lemma db_ok_no_orders db : catalog_ok db → orders db = ∅ → db_ok db.
Proof.
  intros Hc He. split_and!; [|done|]; intros k o; rewrite He, lookup_empty; done.
Qed.

(** C5. As read, [remaining_amount] is
    [max 0 (total_amount - discount_price - advance_paid)] and is never
    negative; and on every order the ledger can hold, whatever requests were
    made and in whatever order, the [net_total] the serializer reports is not
    negative either (it is the clamped net total). *)
Theorem amounts_as_read_nonnegative :
  (∀ o,
     remaining_amount o
       = Z.max 0 (total_amount o - discount_price o - advance_paid o)
     ∧ 0 <= remaining_amount o
     ∧ 0 <= net_total o)
  ∧ (∀ slugify db reqs k o,
       catalog_ok db →
       orders db = ∅ →
       orders (run slugify db reqs) !! k = Some o →
       0 <= remaining_amount o
       ∧ 0 <= get_net_total o
       ∧ get_net_total o = net_total o).
Proof.
  assert (Hrem : ∀ o, remaining_amount o
       = Z.max 0 (total_amount o - discount_price o - advance_paid o)).
  { intros o. unfold remaining_amount. rewrite !decimal_or_zero.
    case_decide; lia. }
  split.
  - intros o. rewrite Hrem. unfold net_total. lia.
  - intros slugify db reqs k o Hc He Hl.
    destruct (run_db_ok slugify db reqs (db_ok_no_orders db Hc He)) as (_ & _ & Hok).
    destruct (Hok _ _ Hl) as (Ht & Hd & Ha & _).
    rewrite Hrem. unfold get_net_total, net_total. rewrite !decimal_or_zero. lia.
Qed.

Lemma amounts_as_read_nonnegative_witness :
  catalog_ok sample_db
  ∧ orders sample_db = ∅
  ∧ ∃ o,
      orders (run plain_slugify sample_db
                [ sample_create;
                  SellerUpdate 739001 bob "bob-roy" "ORD00001"
                    (set_data_advance 60000 no_update);
                  SellerUpdate 739002 bob "bob-roy" "ORD00001"
                    (set_data_discount 10000 no_update) ]) !! "ORD00001" = Some o
      ∧ advance_paid o = 60000 ∧ discount_price o = 10000
      ∧ 0 <= remaining_amount o ∧ 0 <= get_net_total o.
Proof.
  assert (catalog_ok sample_db) as Hc.
  { unfold catalog_ok. simpl. repeat constructor; simpl; lia. }
  assert (orders sample_db = ∅) as He by reflexivity.
  split; [exact Hc|]. split; [exact He|].
  destruct (orders (run plain_slugify sample_db
                [ sample_create;
                  SellerUpdate 739001 bob "bob-roy" "ORD00001"
                    (set_data_advance 60000 no_update);
                  SellerUpdate 739002 bob "bob-roy" "ORD00001"
                    (set_data_discount 10000 no_update) ]) !! "ORD00001")
    as [o|] eqn:E; [|vm_compute in E; discriminate].
  exists o. split; [reflexivity|].
  destruct (proj2 amounts_as_read_nonnegative _ _ _ _ _ Hc He E) as (Hr & Hn & _).
  assert (advance_paid o = 60000 ∧ discount_price o = 10000) as [Ha Hd].
  { vm_compute in E. injection E as <-. split; reflexivity. }
  split; [exact Ha|]. split; [exact Hd|]. split; [exact Hr|exact Hn].
Defined.

(** ** The payment date *)

Lemma completed_order_date_kept today o d :
  full_payment_date o = Some d → full_payment_date (completed_order today o) = Some d.
Proof.
  intros Hd. pose proof (completed_order_payment today o) as [Hy Hn]. simpl in *.
  destruct (decide (fully_paid_rule o)) as [Hr|Hr].
  - destruct (Hy Hr) as [_ ->]. by rewrite Hd.
  - destruct (Hn Hr) as [_ ->]. done.
Qed.

Lemma seller_serializer_update_date today o vd :
  full_payment_date (seller_serializer_update today o vd) =
  match v_full_payment_date vd with
  | Value e => Some e
  | _ =>
      match full_payment_date o with
      | Some d => Some d
      | None =>
          if is_fully_paid (seller_serializer_update today o vd)
          then Some today else None
      end
  end.
Proof.
  rewrite seller_serializer_update_unfold.
  pose proof (apply_seller_update_date today
    (Some (default (discount_price o) (v_discount_price vd)))
    (Some (default (advance_paid o) (v_advance_paid vd)))
    (seller_assigned o vd)) as Ha. simpl in Ha. rewrite Ha.
  pose proof (seller_assigned_frame o vd) as Hs. simpl in Hs.
  destruct Hs as (_ & _ & _ & _ & _ & _ & _ & _ & _ & ->).
  destruct (v_full_payment_date vd); done.
Qed.

Lemma order_change_date_kept req o o' d :
  ¬ supplies_date req →
  order_change req o o' →
  full_payment_date o = Some d → full_payment_date o' = Some d.
Proof.
  intros Hn Hc Hd. destruct req; simpl in Hc.
  - by subst.
  - destruct Hc as [->|[_ [->| ->]]]; [done|done|].
    by apply completed_order_date_kept.
  - by destruct Hc as [->|[_ ->]].
  - by destruct Hc as [->| ->].
  - destruct Hc as [->|(vd & Hvd & _ & _ & ->)]; [done|].
    apply run_seller_fields_Ok in Hvd as (_ & _ & _ & Hf).
    rewrite seller_serializer_update_date, Hf, Hd. simpl in Hn.
    destruct (data_full_payment_date data); [done|done|]. by destruct Hn.
Qed.

Section DateKept.

Variable slugify : string → string.

Lemma run_date_kept reqs :
  ∀ db k o d,
    keys_ok db →
    Forall (λ req, ¬ supplies_date req) reqs →
    orders db !! k = Some o →
    full_payment_date o = Some d →
    (∀ n, is_Some (orders (run slugify db (take n reqs)) !! k)) →
    ∃ o', orders (run slugify db reqs) !! k = Some o'
          ∧ full_payment_date o' = Some d.
Proof.
  induction reqs as [|req reqs IH]; intros db k o d Hk Hn Ho Hd Hex; simpl.
  - eauto.
  - apply Forall_cons in Hn as [Hn Hns].
    destruct (Hex 1%nat) as [o1 Ho1]. simpl in Ho1.
    pose proof Ho1 as Hs. apply step_lookup in Hs; [|done].
    destruct Hs as [(o0 & Ho0 & Hch & _)|[Hnone _]]; [|congruence].
    assert (o0 = o) as -> by congruence.
    eapply (IH (step slugify db req) k o1 d).
    + by apply step_keys_ok.
    + done.
    + done.
    + by eapply order_change_date_kept.
    + intros n. apply (Hex (S n)).
Qed.

End DateKept.

(** C4. When an update or a completion finds the order fully paid and its
    [full_payment_date] unset, the date becomes the current date; a date
    that is set survives every automatic recomputation, by
    [apply_seller_update], by the completion, and along any sequence of
    requests that supply no date of their own, as long as the row exists,
    also when the advance shrinks and [is_fully_paid] goes back to false;
    a date supplied with the seller update is stored as given. *)
Theorem full_payment_date_set_once :
  (∀ today d a o,
     full_payment_date o = None →
     full_payment_date (apply_seller_update today d a o)
     = if is_fully_paid (apply_seller_update today d a o) then Some today else None)
  ∧ (∀ today o,
       full_payment_date o = None →
       net_total o <= 0 ∨ advance_paid o >= net_total o →
       full_payment_date (completed_order today o) = Some today)
  ∧ (∀ today d a o set,
       full_payment_date o = Some set →
       full_payment_date (apply_seller_update today d a o) = Some set)
  ∧ (∀ today o set,
       full_payment_date o = Some set →
       full_payment_date (completed_order today o) = Some set)
  ∧ (∀ slugify reqs db k o set,
       keys_ok db →
       Forall (λ req, ¬ supplies_date req) reqs →
       orders db !! k = Some o →
       full_payment_date o = Some set →
       (∀ n, is_Some (orders (run slugify db (take n reqs)) !! k)) →
       ∃ o', orders (run slugify db reqs) !! k = Some o'
             ∧ full_payment_date o' = Some set)
  ∧ (∀ today o vd given,
       v_full_payment_date vd = Value given →
       full_payment_date (seller_serializer_update today o vd) = Some given).
Proof.
  split_and!.
  - intros today d a o Hn.
    pose proof (apply_seller_update_date today d a o) as H. simpl in H.
    by rewrite H, Hn.
  - intros today o Hn Hr.
    pose proof (completed_order_payment today o) as [Hy _]. simpl in Hy.
    destruct Hy as [_ ->]; [|by rewrite Hn].
    unfold fully_paid_rule. unfold net_total in *. lia.
  - intros today d a o set Hs.
    pose proof (apply_seller_update_date today d a o) as H. simpl in H.
    by rewrite H, Hs.
  - intros. by apply completed_order_date_kept.
  - intros. by eapply run_date_kept.
  - intros today o vd given Hv. by rewrite seller_serializer_update_date, Hv.
Qed.

Lemma sample_db_ok : db_ok sample_db.
Proof.
  apply db_ok_no_orders; [|reflexivity].
  unfold catalog_ok. simpl. repeat constructor; simpl; lia.
Qed.

Lemma full_payment_date_set_once_witness :
  ∃ o o',
    orders paid_db !! "ORD00001" = Some o
    ∧ is_fully_paid o = true
    ∧ full_payment_date o = Some 739001
    ∧ orders (run plain_slugify paid_db later_requests) !! "ORD00001" = Some o'
    ∧ advance_paid o' = 20000
    ∧ is_fully_paid o' = false
    ∧ status o' = completed
    ∧ full_payment_date o' = Some 739001.
Proof.
  destruct (orders paid_db !! "ORD00001") as [o|] eqn:Eo;
    [|vm_compute in Eo; discriminate].
  assert (is_fully_paid o = true ∧ full_payment_date o = Some 739001) as [Hp Hd].
  { vm_compute in Eo. injection Eo as <-. split; reflexivity. }
  assert (keys_ok paid_db) as Hk.
  { apply run_db_ok, run_db_ok, sample_db_ok. }
  assert (Forall (λ req, ¬ supplies_date req) later_requests) as Hn.
  { repeat constructor; simpl; tauto. }
  assert (∀ n, is_Some (orders (run plain_slugify paid_db (take n later_requests))
                          !! "ORD00001")) as Hex.
  { intros [|[|[|n]]]; vm_compute; eauto. }
  destruct (proj1 (proj2 (proj2 (proj2 (proj2 full_payment_date_set_once))))
              plain_slugify later_requests paid_db "ORD00001" o 739001
              Hk Hn Eo Hd Hex) as (o' & Eo' & Hd').
  exists o, o'. split; [reflexivity|]. split; [exact Hp|]. split; [exact Hd|].
  split; [exact Eo'|].
  assert (advance_paid o' = 20000 ∧ is_fully_paid o' = false ∧ status o' = completed)
    as (Ha & Hf & Hs).
  { vm_compute in Eo'. injection Eo' as <-. repeat split; reflexivity. }
  split; [exact Ha|]. split; [exact Hf|]. split; [exact Hs|exact Hd'].
Defined.

(** ** The lifecycle *)

(** Every request other than the seller's acceptance leaves a completed or
    cancelled order in its state. *)
Lemma order_change_closed_kept req o o' :
  (∀ u slug oid, req ≠ AcceptOrder u slug oid) →
  status o = completed ∨ status o = cancelled →
  order_change req o o' →
  status o' = status o.
Proof.
  intros Hreq Hst Hc. destruct req; simpl in Hc.
  - by subst.
  - destruct Hc as [->|[[Hp|Hp] _]]; [done|..]; rewrite Hp in Hst; by destruct Hst.
  - destruct Hc as [->|[Hp _]]; [done|]. rewrite Hp in Hst. by destruct Hst.
  - by destruct (Hreq request_user seller_slug oid).
  - destruct Hc as [->|(vd & _ & _ & _ & ->)]; [done|].
    by destruct (seller_serializer_update_frame today o vd) as (_ & _ & _ & -> & _).
Qed.

(** C3 (the code departs from it). [AcceptOrderView.update] has no check of
    the current status: on the cancelled order and on the completed order it
    stores [accepted]. *)
Theorem accept_reopens_closed_order :
  (status <$> orders cancelled_db !! "ORD00001" = Some cancelled
   ∧ status <$> orders (step plain_slugify cancelled_db
                          (AcceptOrder bob "bob-roy" "ORD00001")) !! "ORD00001"
     = Some accepted)
  ∧ (status <$> orders completed_db !! "ORD00001" = Some completed
     ∧ status <$> orders (step plain_slugify completed_db
                            (AcceptOrder bob "bob-roy" "ORD00001")) !! "ORD00001"
       = Some accepted).
Proof. repeat split; vm_compute; reflexivity. Qed.

(** C6. The buyer's update succeeds only for the buyer of the order and only
    on a pending or accepted order. Completing stores [completed]; it sets
    [is_fully_paid] and stamps an unset [full_payment_date] when the net
    total is at most zero or the advance covers it, and otherwise leaves
    both as they were. So on every order the ledger can hold that is pending
    with an advance of 200.00 against a net total of 500.00 and no payment
    date, completion gives [completed], not fully paid, no payment date. *)
Theorem buyer_transition_completed :
  (∀ slugify today db u slug oid f db' r,
     UpdateServiceOrderView_update slugify today db u slug oid f = Ok (db', r) →
     ∃ o, orders db !! oid = Some o ∧ buyer o = user_id u
          ∧ (status o = pending ∨ status o = accepted))
  ∧ (∀ slugify today db u slug oid o,
       UpdateServiceOrderView_get_object slugify db u slug oid = Ok o →
       ∃ o',
         UpdateServiceOrderView_update slugify today db u slug oid (Value "completed")
           = Ok (save o' db, RespOrder o')
         ∧ status o' = completed
         ∧ (net_total o <= 0 ∨ advance_paid o >= net_total o →
            is_fully_paid o' = true
            ∧ full_payment_date o' = Some (default today (full_payment_date o)))
         ∧ (¬ (net_total o <= 0 ∨ advance_paid o >= net_total o) →
            is_fully_paid o' = is_fully_paid o
            ∧ full_payment_date o' = full_payment_date o))
  ∧ (∀ slugify today db0 reqs u slug oid o,
       catalog_ok db0 →
       orders db0 = ∅ →
       UpdateServiceOrderView_get_object slugify (run slugify db0 reqs) u slug oid
         = Ok o →
       status o = pending →
       advance_paid o = 20000 →
       net_total o = 50000 →
       full_payment_date o = None →
       ∃ o',
         UpdateServiceOrderView_update slugify today (run slugify db0 reqs) u slug oid
           (Value "completed")
           = Ok (save o' (run slugify db0 reqs), RespOrder o')
         ∧ status o' = completed
         ∧ is_fully_paid o' = false
         ∧ full_payment_date o' = None).
Proof.
  assert (Hview : ∀ slugify today db u slug oid o,
    UpdateServiceOrderView_get_object slugify db u slug oid = Ok o →
    UpdateServiceOrderView_update slugify today db u slug oid (Value "completed")
    = Ok (save (completed_order today o) db, RespOrder (completed_order today o))).
  { intros * Hget. unfold UpdateServiceOrderView_update. rewrite Hget. done. }
  assert (Hrule : ∀ o, net_total o <= 0 ∨ advance_paid o >= net_total o
                       ↔ fully_paid_rule o).
  { intros o. unfold fully_paid_rule, net_total. lia. }
  split_and!.
  - intros * H. apply UpdateServiceOrderView_update_Ok in H
      as (o & o1 & Hget & _). exists o.
    by apply UpdateServiceOrderView_get_object_Ok in Hget.
  - intros * Hget. exists (completed_order today o).
    split; [by apply Hview|].
    destruct (completed_order_frame today o) as (_ & _ & _ & Hs & _).
    destruct (completed_order_payment today o) as [Hy Hn].
    split; [done|]. split; intros Hc; [apply Hy|apply Hn]; by rewrite <- Hrule.
  - intros * Hc He Hget Hs Ha Hnet Hd. exists (completed_order today o).
    split; [by apply Hview|].
    destruct (completed_order_frame today o) as (_ & _ & _ & Hst & _).
    split; [done|].
    destruct (completed_order_payment today o) as [_ Hn].
    apply UpdateServiceOrderView_get_object_Ok in Hget as (Hl & _).
    destruct (run_db_ok slugify db0 reqs (db_ok_no_orders db0 Hc He))
      as (_ & _ & Hok).
    destruct (Hok _ _ Hl) as (_ & _ & _ & Hp).
    assert (¬ fully_paid_rule o) as Hnr.
    { unfold fully_paid_rule. rewrite Hnet, Ha. lia. }
    destruct (Hn Hnr) as [-> ->]. split; [|done].
    destruct (is_fully_paid o); [|done]. by destruct Hnr; apply Hp.
Qed.

Lemma buyer_transition_completed_witness :
  ∃ o o',
    UpdateServiceOrderView_get_object plain_slugify part_paid_db alice
      "alice-khan" "ORD00001" = Ok o
    ∧ status o = pending ∧ advance_paid o = 20000 ∧ net_total o = 50000
    ∧ UpdateServiceOrderView_update plain_slugify 739006 part_paid_db alice
        "alice-khan" "ORD00001" (Value "completed")
      = Ok (save o' part_paid_db, RespOrder o')
    ∧ status o' = completed
    ∧ is_fully_paid o' = false
    ∧ full_payment_date o' = None.
Proof.
  destruct (UpdateServiceOrderView_get_object plain_slugify part_paid_db alice
      "alice-khan" "ORD00001") as [o|e] eqn:E; [|vm_compute in E; discriminate].
  assert (status o = pending ∧ advance_paid o = 20000 ∧ net_total o = 50000
          ∧ full_payment_date o = None) as (Hs & Ha & Hn & Hd).
  { vm_compute in E. injection E as <-. repeat split; reflexivity. }
  assert (catalog_ok sample_db) as Hc by apply sample_db_ok.
  assert (orders sample_db = ∅) as He by reflexivity.
  destruct (proj2 (proj2 buyer_transition_completed) plain_slugify 739006
              sample_db
              [ sample_create;
                SellerUpdate 739001 bob "bob-roy" "ORD00001"
                  (set_data_advance 20000 no_update) ]
              alice "alice-khan" "ORD00001" o Hc He E Hs Ha Hn Hd)
    as (o' & Hv & Hs' & Hp' & Hd').
  exists o, o'. split; [reflexivity|]. split; [exact Hs|]. split; [exact Ha|].
  split; [exact Hn|]. split; [exact Hv|]. split; [exact Hs'|].
  split; [exact Hp'|exact Hd'].
Defined.

(** ** Rejection and clamping of a discount above the total *)

(** C7. On the update path a supplied discount above the total is rejected
    with [ValidationError], by [validate] and hence by the view for every
    order the seller may update; [apply_seller_update] given the same value
    stores the total as the discount and reports nothing. *)
Theorem discount_over_total_two_policies :
  (∀ u o vd d,
     v_discount_price vd = Some d →
     d > total_amount o →
     seller_validate u o vd = Err ValidationError)
  ∧ (∀ slugify today db u slug oid data d o,
       SellerUpdateServiceOrderView_get_object slugify db u slug oid = Ok o →
       data_discount_price data = Value d →
       d > total_amount o →
       SellerUpdateServiceOrderView_update slugify today db u slug oid data
       = Err ValidationError)
  ∧ (∀ today d a o,
       d > total_amount o →
       discount_price (apply_seller_update today (Some d) a o) = total_amount o
       ∧ total_amount (apply_seller_update today (Some d) a o) = total_amount o).
Proof.
  assert (Hval : ∀ u o vd d,
     v_discount_price vd = Some d →
     d > total_amount o →
     seller_validate u o vd = Err ValidationError).
  { intros u o vd d Hd Hgt. unfold seller_validate. rewrite Hd. simpl.
    destruct (bool_decide (user_type u = Seller)); simpl; [|done].
    rewrite bool_decide_eq_true_2; done. }
  split_and!.
  - exact Hval.
  - intros * Hget Hd Hgt. unfold SellerUpdateServiceOrderView_update.
    rewrite Hget. simpl.
    destruct (run_seller_fields data) as [vd|e] eqn:Ef.
    + simpl. apply run_seller_fields_Ok in Ef as (Hf & _).
      rewrite Hd in Hf. simpl in Hf. case_decide; [|done].
      injection Hf as Hf. by rewrite (Hval u o vd d).
    + simpl. f_equal. unfold run_seller_fields in Ef.
      destruct (run_decimal_field (data_discount_price data)) as [?|e1] eqn:E1.
      * destruct (run_decimal_field (data_advance_paid data)) as [?|e2] eqn:E2;
          [done|]. simpl in Ef. injection Ef as <-.
        destruct (data_advance_paid data); simpl in E2; [done|congruence|].
        case_decide; congruence.
      * simpl in Ef. injection Ef as <-. rewrite Hd in E1. simpl in E1.
        case_decide; congruence.
  - intros today d a o Hgt. rewrite apply_seller_update_discount.
    destruct (apply_seller_update_frame today (Some d) a o)
      as (_ & _ & _ & _ & -> & _). simpl. lia.
Qed.

Lemma discount_over_total_two_policies_witness :
  ∃ o,
    SellerUpdateServiceOrderView_get_object plain_slugify booked_db bob
      "bob-roy" "ORD00001" = Ok o
    ∧ 70000 > total_amount o
    ∧ SellerUpdateServiceOrderView_update plain_slugify 739001 booked_db bob
        "bob-roy" "ORD00001" (set_data_discount 70000 no_update)
      = Err ValidationError
    ∧ discount_price (apply_seller_update 739001 (Some 70000) None o)
      = total_amount o.
Proof.
  destruct (SellerUpdateServiceOrderView_get_object plain_slugify booked_db bob
      "bob-roy" "ORD00001") as [o|e] eqn:E; [|vm_compute in E; discriminate].
  assert (70000 > total_amount o) as Hgt.
  { vm_compute in E. injection E as <-. reflexivity. }
  exists o. split; [reflexivity|]. split; [exact Hgt|]. split.
  - exact (proj1 (proj2 discount_over_total_two_policies) plain_slugify 739001
             booked_db bob "bob-roy" "ORD00001"
             (set_data_discount 70000 no_update) 70000 o E eq_refl Hgt).
  - exact (proj1 (proj2 (proj2 discount_over_total_two_policies) 739001 70000
                    None o Hgt)).
Defined.

(** ** Creation *)





(** ** Deletion *)

(** C9. Once the order is found, [destroy] decides by the actor, in this
    order: the buyer of a pending order has it set to [cancelled], the row
    kept, and is answered "Order cancelled"; otherwise the seller has the
    row deleted, whatever its status; anyone else, and the buyer of an order
    that is not pending, is answered [ForbiddenError]. *)
Theorem delete_dispatches_on_actor :
  (∀ slugify db u slug oid b o,
     get_user_by_slug_or_404 slugify db slug Customer = Ok b →
     get_order_or_404 db oid buyer b = Ok o →
     DeleteServiceOrderView_destroy slugify db u slug oid =
     if decide (buyer o = user_id u ∧ status o = pending) then
       Ok (save (set_status cancelled o) db, RespSuccess "Order cancelled")
     else if decide (seller o = user_id u) then
       Ok (delete_order o db, RespNoContent)
     else Err ForbiddenError)
  ∧ (∀ o db,
       orders (save (set_status cancelled o) db) !! order_id o
         = Some (set_status cancelled o)
       ∧ status (set_status cancelled o) = cancelled
       ∧ orders (delete_order o db) !! order_id o = None)
  ∧ (∀ slugify db u slug oid b o,
       get_user_by_slug_or_404 slugify db slug Customer = Ok b →
       get_order_or_404 db oid buyer b = Ok o →
       seller o = user_id u →
       buyer o ≠ user_id u →
       DeleteServiceOrderView_destroy slugify db u slug oid
       = Ok (delete_order o db, RespNoContent))
  ∧ (∀ slugify db u slug oid b o,
       get_user_by_slug_or_404 slugify db slug Customer = Ok b →
       get_order_or_404 db oid buyer b = Ok o →
       seller o ≠ user_id u →
       buyer o ≠ user_id u ∨ status o ≠ pending →
       DeleteServiceOrderView_destroy slugify db u slug oid = Err ForbiddenError).
Proof.
  assert (Hchar : ∀ slugify db u slug oid b o,
     get_user_by_slug_or_404 slugify db slug Customer = Ok b →
     get_order_or_404 db oid buyer b = Ok o →
     DeleteServiceOrderView_destroy slugify db u slug oid =
     if decide (buyer o = user_id u ∧ status o = pending) then
       Ok (save (set_status cancelled o) db, RespSuccess "Order cancelled")
     else if decide (seller o = user_id u) then
       Ok (delete_order o db, RespNoContent)
     else Err ForbiddenError).
  { intros * Hb Ho.
    unfold DeleteServiceOrderView_destroy, DeleteServiceOrderView_get_object.
    rewrite Hb. simpl. rewrite Ho. simpl.
    destruct (decide (buyer o = user_id u ∧ status o = pending)) as [[Hbu Hp]|Hn].
    - rewrite bool_decide_eq_false_2 by tauto. simpl.
      rewrite decide_True by done. done.
    - destruct (decide (seller o = user_id u)) as [Hs|Hs].
      + rewrite bool_decide_eq_false_2 by tauto. simpl.
        rewrite decide_False by done. rewrite decide_True by done. done.
      + destruct (decide (buyer o = user_id u)) as [Hbu|Hbu].
        * rewrite bool_decide_eq_false_2 by tauto. simpl.
          rewrite decide_False by done. rewrite decide_False by done. done.
        * rewrite bool_decide_eq_true_2 by done. done. }
  split_and!.
  - exact Hchar.
  - intros o db. rewrite save_lookup, delete_order_lookup. simpl.
    rewrite !decide_True by done. done.
  - intros * Hb Ho Hs Hnb. rewrite (Hchar _ _ _ _ _ _ _ Hb Ho).
    rewrite decide_False by tauto. by rewrite decide_True.
  - intros * Hb Ho Hs Hn. rewrite (Hchar _ _ _ _ _ _ _ Hb Ho).
    rewrite decide_False by tauto. by rewrite decide_False.
Qed.

Lemma delete_dispatches_on_actor_witness :
  ∃ o,
    get_user_by_slug_or_404 plain_slugify completed_db "alice-khan" Customer
      = Ok alice
    ∧ get_order_or_404 completed_db "ORD00001" buyer alice = Ok o
    ∧ status o = completed
    ∧ DeleteServiceOrderView_destroy plain_slugify completed_db bob
        "alice-khan" "ORD00001"
      = Ok (delete_order o completed_db, RespNoContent)
    ∧ DeleteServiceOrderView_destroy plain_slugify completed_db alice
        "alice-khan" "ORD00001"
      = Err ForbiddenError
    ∧ DeleteServiceOrderView_destroy plain_slugify completed_db carol
        "alice-khan" "ORD00001"
      = Err ForbiddenError.
Proof.
  assert (get_user_by_slug_or_404 plain_slugify completed_db "alice-khan" Customer
          = Ok alice) as Hb by reflexivity.
  destruct (get_order_or_404 completed_db "ORD00001" buyer alice) as [o|e] eqn:E;
    [|vm_compute in E; discriminate].
  assert (status o = completed ∧ seller o = user_id bob ∧ buyer o ≠ user_id bob
          ∧ seller o ≠ user_id alice ∧ seller o ≠ user_id carol
          ∧ buyer o ≠ user_id carol) as (Hs & Hsb & Hbb & Hsa & Hsc & Hbc).
  { vm_compute in E. injection E as <-. repeat split; discriminate. }
  exists o. split; [exact Hb|]. split; [reflexivity|]. split; [exact Hs|].
  destruct delete_dispatches_on_actor as (_ & _ & Hsel & Hforb).
  split; [exact (Hsel _ _ bob _ _ _ _ Hb E Hsb Hbb)|].
  split.
  - apply (Hforb _ _ alice _ _ _ _ Hb E Hsa). right. rewrite Hs. discriminate.
  - apply (Hforb _ _ carol _ _ _ _ Hb E Hsc). left. exact Hbc.
Defined.

(** ** The invoice *)

(** C10, as the code has it. A seller update that omits [invoice_file] or
    supplies [null] leaves the stored reference as it is; one that supplies
    a value stores that value, the blank string included; so a reference
    that is set is never set back to [null], and it is emptied only by a
    blank string that is sent. *)
Theorem invoice_file_replaced_only_by_value :
  (∀ today o vd,
     v_invoice_file vd = Omitted ∨ v_invoice_file vd = Null →
     invoice_file (seller_serializer_update today o vd) = invoice_file o)
  ∧ (∀ today o vd f,
       v_invoice_file vd = Value f →
       invoice_file (seller_serializer_update today o vd) = Some f)
  ∧ (∀ today o vd,
       is_Some (invoice_file o) →
       is_Some (invoice_file (seller_serializer_update today o vd)))
  ∧ (∀ slugify today db u slug oid data db' r,
       SellerUpdateServiceOrderView_update slugify today db u slug oid data
         = Ok (db', r) →
       ∃ o o', orders db !! oid = Some o ∧ r = RespOrder o'
               ∧ orders db' !! order_id o' = Some o'
               ∧ invoice_file o' = match data_invoice_file data with
                                   | Value f => Some f
                                   | _ => invoice_file o
                                   end).
Proof.
  split_and!.
  - intros today o vd Hv.
    destruct (seller_serializer_update_frame today o vd)
      as (_ & _ & _ & _ & _ & ->).
    by destruct Hv as [-> | ->].
  - intros today o vd f Hv.
    destruct (seller_serializer_update_frame today o vd)
      as (_ & _ & _ & _ & _ & ->).
    by rewrite Hv.
  - intros today o vd Hs.
    destruct (seller_serializer_update_frame today o vd)
      as (_ & _ & _ & _ & _ & ->).
    destruct (v_invoice_file vd); eauto.
  - intros * H. apply SellerUpdateServiceOrderView_update_Ok in H
      as (o & vd & Hget & Hvd & _ & -> & ->).
    apply SellerUpdateServiceOrderView_get_object_Ok in Hget as (Ho & _).
    apply run_seller_fields_Ok in Hvd as (_ & _ & Hi & _).
    exists o. eexists. split; [done|]. split; [done|].
    split; [by rewrite save_lookup, decide_True|].
    destruct (seller_serializer_update_frame today o vd)
      as (_ & _ & _ & _ & _ & ->).
    by rewrite Hi.
Qed.

Lemma invoice_file_replaced_only_by_value_witness :
  ∃ o db' o',
    orders invoiced_db !! "ORD00001" = Some o
    ∧ invoice_file o = Some "https://files.example/inv-1.pdf"
    ∧ SellerUpdateServiceOrderView_update plain_slugify 739002 invoiced_db bob
        "bob-roy" "ORD00001"
        (mkSellerUpdateData Omitted (Value 10000) Null Omitted)
      = Ok (db', RespOrder o')
    ∧ invoice_file o' = Some "https://files.example/inv-1.pdf".
Proof.
  destruct (SellerUpdateServiceOrderView_update plain_slugify 739002 invoiced_db bob
        "bob-roy" "ORD00001"
        (mkSellerUpdateData Omitted (Value 10000) Null Omitted))
    as [[db' r]|e] eqn:E; [|vm_compute in E; discriminate].
  destruct (proj2 (proj2 (proj2 invoice_file_replaced_only_by_value)) _ _ _ _ _ _ _ _ _ E)
    as (o & o' & Ho & -> & _ & Hi).
  simpl in Hi.
  assert (invoice_file o = Some "https://files.example/inv-1.pdf") as Hinv.
  { vm_compute in Ho. injection Ho as <-. reflexivity. }
  exists o, db', o'. split; [exact Ho|]. split; [exact Hinv|].
  split; [reflexivity|]. rewrite Hi. exact Hinv.
Defined.

(** C10, as it is stated, fails: the column admits the blank string, the
    update stores whatever is not [null], and so a seller update that sends
    a blank [invoice_file] empties a reference that was set. *)
Lemma invoice_file_emptied_by_blank :
  ¬ (∀ slugify today db u slug oid data db' o o',
       orders db !! oid = Some o →
       SellerUpdateServiceOrderView_update slugify today db u slug oid data
         = Ok (db', RespOrder o') →
       invoice_is_set (invoice_file o) →
       invoice_is_set (invoice_file o')).
Proof.
  intros H.
  destruct (orders invoiced_db !! "ORD00001") as [o|] eqn:Eo;
    [|vm_compute in Eo; discriminate].
  destruct (SellerUpdateServiceOrderView_update plain_slugify 739002 invoiced_db bob
              "bob-roy" "ORD00001" blank_invoice) as [[db' r]|e] eqn:E;
    [|vm_compute in E; discriminate].
  assert (∃ o', r = RespOrder o' ∧ invoice_file o' = Some "") as (o' & -> & Hi).
  { vm_compute in E. injection E as _ <-. eexists. split; reflexivity. }
  assert (invoice_is_set (invoice_file o)) as Hset.
  { vm_compute in Eo. injection Eo as <-. eexists. split; [reflexivity|discriminate]. }
  destruct (H plain_slugify _ _ _ _ _ _ _ o o' Eo E Hset) as (url & Hu & Hne).
  rewrite Hi in Hu. injection Hu as <-. by apply Hne.
Qed.

(** * Further properties of the order app *)

(** ** Acceptance *)

Lemma save_save o db : save o (save o db) = save o db.
Proof. unfold save, set_orders; simpl. f_equal. apply insert_insert_eq. Qed.

Lemma get_order_or_404_intro db oid party u o :
  orders db !! oid = Some o → party o = user_id u →
  get_order_or_404 db oid party u = Ok o.
Proof.
  intros Ho Hp. unfold get_order_or_404. rewrite Ho. by rewrite decide_True.
Qed.

(** X1. Sending the same acceptance twice leaves the database as sending it
    once does, whether it is accepted or refused. *)
Theorem accept_twice_is_accept_once slugify db u slug oid :
  step slugify (step slugify db (AcceptOrder u slug oid)) (AcceptOrder u slug oid)
  = step slugify db (AcceptOrder u slug oid).
Proof.
  assert (Hstep : ∀ d, step slugify d (AcceptOrder u slug oid)
    = match AcceptOrderView_update slugify d u slug oid with
      | Ok (d', _) => d'
      | Err _ => d
      end) by done.
  rewrite (Hstep db).
  destruct (AcceptOrderView_update slugify db u slug oid) as [[db' r]|e] eqn:E;
    [|by rewrite Hstep, E].
  rewrite Hstep. clear Hstep.
  unfold AcceptOrderView_update in E.
  destruct (get_user_by_slug_or_404 slugify db slug Seller) as [s|] eqn:Hs;
    [|done]. simpl in E.
  destruct (get_order_or_404 db oid seller s) as [o|] eqn:Ho; [|done]. simpl in E.
  destruct (bool_decide (seller o = user_id u)) eqn:Hu; [|done]. simpl in E.
  injection E as <- <-.
  apply get_order_or_404_Ok in Ho as [Ho Hso].
  set (o1 := set_status accepted (set_seller_agreed true o)).
  assert (∃ x, get_order_or_404 (save o1 db) oid seller s = Ok x
               ∧ set_status accepted (set_seller_agreed true x) = o1) as (x & Hx & Hacc).
  { unfold get_order_or_404. rewrite save_lookup.
    destruct (decide (order_id o1 = oid)).
    - exists o1. by rewrite decide_True.
    - exists o. rewrite Ho. by rewrite decide_True. }
  assert (seller x = user_id u) as Hxu.
  { apply bool_decide_eq_true in Hu. rewrite <- Hu.
    change (seller o) with (seller o1). rewrite <- Hacc. done. }
  unfold AcceptOrderView_update.
  change (get_user_by_slug_or_404 slugify (save o1 db) slug Seller)
    with (get_user_by_slug_or_404 slugify db slug Seller).
  rewrite Hs. simpl. rewrite Hx. simpl.
  rewrite bool_decide_eq_true_2 by done. simpl.
  rewrite Hacc. apply save_save.
Qed.

(** X2. The view accepts only for the seller of the order, and the row it
    writes is the one [ServiceOrder.accept] produces for [by_seller=True]:
    the status is [accepted], [seller_agreed] is set, and the amounts, the
    paid flag, the payment date and the invoice are those found. Without
    [by_seller] the method changes nothing, and accepting an accepted row
    gives it back. *)
Theorem accept_view_matches_model :
  (∀ slugify db u slug oid db' r,
     AcceptOrderView_update slugify db u slug oid = Ok (db', r) →
     ∃ o, orders db !! oid = Some o
          ∧ seller o = user_id u
          ∧ db' = save (accept true o) db
          ∧ r = RespOrder (accept true o))
  ∧ (∀ o, accept false o = o)
  ∧ (∀ o, accept true (accept true o) = accept true o)
  ∧ (∀ o,
       status (accept true o) = accepted
       ∧ seller_agreed (accept true o) = true
       ∧ same_identity o (accept true o)
       ∧ discount_price (accept true o) = discount_price o
       ∧ advance_paid (accept true o) = advance_paid o
       ∧ is_fully_paid (accept true o) = is_fully_paid o
       ∧ full_payment_date (accept true o) = full_payment_date o
       ∧ invoice_file (accept true o) = invoice_file o).
Proof.
  split_and!; try done.
  intros * H. apply AcceptOrderView_update_Ok in H as (o & Ho & Hs & -> & ->).
  exists o. done.
Qed.

Lemma accept_view_matches_model_witness :
  ∃ db' o,
    AcceptOrderView_update plain_slugify booked_db bob "bob-roy" "ORD00001"
      = Ok (db', RespOrder (accept true o))
    ∧ orders booked_db !! "ORD00001" = Some o
    ∧ seller o = user_id bob
    ∧ status o = pending.
Proof.
  destruct (AcceptOrderView_update plain_slugify booked_db bob "bob-roy" "ORD00001")
    as [[db' r]|e] eqn:E; [|vm_compute in E; discriminate].
  destruct (proj1 accept_view_matches_model _ _ _ _ _ _ _ E)
    as (o & Ho & Hs & _ & ->).
  exists db', o. split; [reflexivity|]. split; [exact Ho|]. split; [exact Hs|].
  vm_compute in Ho. injection Ho as <-. reflexivity.
Defined.

(** ** Cancellation by the buyer *)

(** X3. The buyer of a pending order cancels it through either endpoint
    with the same effect: the update to "cancelled" and the delete write the
    same database, in which the row differs from the stored one in its
    status only. On an accepted order the update still cancels, while the
    delete is refused unless the requester is the seller. *)
Theorem buyer_cancels_through_either_endpoint :
  (∀ slugify today db u slug oid b o,
     get_user_by_slug_or_404 slugify db slug Customer = Ok b →
     get_order_or_404 db oid buyer b = Ok o →
     buyer o = user_id u →
     status o = pending →
     UpdateServiceOrderView_update slugify today db u slug oid (Value "cancelled")
       = Ok (save (set_status cancelled o) db, RespOrder (set_status cancelled o))
     ∧ DeleteServiceOrderView_destroy slugify db u slug oid
       = Ok (save (set_status cancelled o) db, RespSuccess "Order cancelled"))
  ∧ (∀ slugify today db u slug oid b o,
       get_user_by_slug_or_404 slugify db slug Customer = Ok b →
       get_order_or_404 db oid buyer b = Ok o →
       buyer o = user_id u →
       seller o ≠ user_id u →
       status o = accepted →
       UpdateServiceOrderView_update slugify today db u slug oid (Value "cancelled")
         = Ok (save (set_status cancelled o) db, RespOrder (set_status cancelled o))
       ∧ DeleteServiceOrderView_destroy slugify db u slug oid = Err ForbiddenError)
  ∧ (∀ o,
       status (set_status cancelled o) = cancelled
       ∧ same_identity o (set_status cancelled o)
       ∧ seller_agreed (set_status cancelled o) = seller_agreed o
       ∧ discount_price (set_status cancelled o) = discount_price o
       ∧ advance_paid (set_status cancelled o) = advance_paid o
       ∧ is_fully_paid (set_status cancelled o) = is_fully_paid o
       ∧ full_payment_date (set_status cancelled o) = full_payment_date o
       ∧ invoice_file (set_status cancelled o) = invoice_file o).
Proof.
  assert (Hupd : ∀ slugify today db u slug oid b o,
     get_user_by_slug_or_404 slugify db slug Customer = Ok b →
     get_order_or_404 db oid buyer b = Ok o →
     buyer o = user_id u →
     status o = pending ∨ status o = accepted →
     UpdateServiceOrderView_update slugify today db u slug oid (Value "cancelled")
       = Ok (save (set_status cancelled o) db, RespOrder (set_status cancelled o))).
  { intros * Hb Ho Hu Hs.
    unfold UpdateServiceOrderView_update, UpdateServiceOrderView_get_object.
    rewrite Hb. simpl. rewrite Ho. simpl.
    rewrite bool_decide_eq_true_2 by done. simpl.
    rewrite bool_decide_eq_true_2 by done. done. }
  assert (Hdel : ∀ slugify db u slug oid b o,
     get_user_by_slug_or_404 slugify db slug Customer = Ok b →
     get_order_or_404 db oid buyer b = Ok o →
     buyer o = user_id u →
     DeleteServiceOrderView_destroy slugify db u slug oid =
     if decide (status o = pending) then
       Ok (save (set_status cancelled o) db, RespSuccess "Order cancelled")
     else if decide (seller o = user_id u) then
       Ok (delete_order o db, RespNoContent)
     else Err ForbiddenError).
  { intros * Hb Ho Hu.
    unfold DeleteServiceOrderView_destroy, DeleteServiceOrderView_get_object.
    rewrite Hb. simpl. rewrite Ho. simpl.
    rewrite bool_decide_eq_false_2 by tauto. simpl.
    destruct (decide (status o = pending)) as [Hp|Hp].
    - by rewrite decide_True.
    - rewrite decide_False by tauto. done. }
  split_and!.
  - intros * Hb Ho Hu Hs. split; [eapply Hupd; eauto|].
    rewrite (Hdel _ _ _ _ _ _ _ Hb Ho Hu). by rewrite decide_True.
  - intros * Hb Ho Hu Hns Hs. split; [eapply Hupd; eauto|].
    rewrite (Hdel _ _ _ _ _ _ _ Hb Ho Hu).
    rewrite decide_False by (rewrite Hs; discriminate).
    by rewrite decide_False.
  - intros o. unfold same_identity. split_and!; reflexivity.
Qed.

Lemma buyer_cancels_through_either_endpoint_witness :
  ∃ o,
    get_user_by_slug_or_404 plain_slugify booked_db "alice-khan" Customer = Ok alice
    ∧ get_order_or_404 booked_db "ORD00001" buyer alice = Ok o
    ∧ status o = pending
    ∧ UpdateServiceOrderView_update plain_slugify 739001 booked_db alice
        "alice-khan" "ORD00001" (Value "cancelled")
      = Ok (save (set_status cancelled o) booked_db, RespOrder (set_status cancelled o))
    ∧ DeleteServiceOrderView_destroy plain_slugify booked_db alice
        "alice-khan" "ORD00001"
      = Ok (save (set_status cancelled o) booked_db, RespSuccess "Order cancelled").
Proof.
  assert (get_user_by_slug_or_404 plain_slugify booked_db "alice-khan" Customer
          = Ok alice) as Hb by reflexivity.
  destruct (get_order_or_404 booked_db "ORD00001" buyer alice) as [o|e] eqn:E;
    [|vm_compute in E; discriminate].
  assert (buyer o = user_id alice ∧ status o = pending) as [Hu Hs].
  { vm_compute in E. injection E as <-. split; reflexivity. }
  destruct (proj1 buyer_cancels_through_either_endpoint plain_slugify 739001
              booked_db alice "alice-khan" "ORD00001" alice o Hb E Hu Hs)
    as [H1 H2].
  exists o. split; [exact Hb|]. split; [reflexivity|]. split; [exact Hs|].
  split; [exact H1|exact H2].
Defined.

(** ** The seller update *)

Lemma apply_seller_update_identity today d a o :
  same_identity o (apply_seller_update today d a o).
Proof.
  unfold same_identity, apply_seller_update, stamp_full_payment_date. simpl.
  destruct (full_payment_date o) eqn:E; repeat case_decide; simpl;
    split_and!; reflexivity.
Qed.

Lemma same_identity_trans a b c :
  same_identity a b → same_identity b c → same_identity a c.
Proof.
  unfold same_identity. intros Hab Hbc. destruct_and!. split_and!; congruence.
Qed.

Lemma seller_assigned_identity o vd : same_identity o (seller_assigned o vd).
Proof.
  unfold seller_assigned, same_identity.
  destruct (field_get (v_invoice_file vd) None),
    (field_get (v_full_payment_date vd) (full_payment_date o));
    split_and!; reflexivity.
Qed.

Lemma seller_serializer_update_identity today o vd :
  same_identity o (seller_serializer_update today o vd).
Proof.
  rewrite seller_serializer_update_unfold.
  eapply same_identity_trans;
    [apply seller_assigned_identity | apply apply_seller_update_identity].
Qed.

(** X4. On the update path nothing is clamped: a seller update that is
    accepted stores the supplied discount and the supplied advance as they
    were sent, the discount being between zero and the total and the advance
    not negative; an amount that is not sent keeps its stored value when
    that is not negative; the status and the attributes fixed at creation
    stay. *)
Theorem seller_update_stores_supplied_values :
  ∀ slugify today db u slug oid data db' r,
    SellerUpdateServiceOrderView_update slugify today db u slug oid data
      = Ok (db', r) →
    ∃ o o',
      orders db !! oid = Some o
      ∧ r = RespOrder o'
      ∧ db' = save o' db
      ∧ status o' = status o
      ∧ same_identity o o'
      ∧ (∀ d, data_discount_price data = Value d →
              discount_price o' = d ∧ 0 <= d <= total_amount o)
      ∧ (∀ a, data_advance_paid data = Value a →
              advance_paid o' = a ∧ 0 <= a)
      ∧ (data_discount_price data = Omitted → 0 <= discount_price o →
         discount_price o' = discount_price o)
      ∧ (data_advance_paid data = Omitted → 0 <= advance_paid o →
         advance_paid o' = advance_paid o).
Proof.
  intros * H. apply SellerUpdateServiceOrderView_update_Ok in H
    as (o & vd & Hget & Hvd & Hle & -> & ->).
  apply SellerUpdateServiceOrderView_get_object_Ok in Hget as (Ho & _ & _).
  apply run_seller_fields_Ok in Hvd as (Hd & Ha & _ & _).
  apply run_decimal_field_Ok in Hd, Ha.
  exists o, (seller_serializer_update today o vd).
  destruct (seller_serializer_update_frame today o vd) as (_ & _ & _ & Hs & _).
  split_and!; try done.
  - apply seller_serializer_update_identity.
  - intros d Hv. rewrite seller_serializer_update_unfold.
    rewrite apply_seller_update_discount.
    destruct (seller_assigned_frame o vd) as (_ & _ & _ & _ & -> & _).
    destruct (v_discount_price vd) as [d0|]; [|congruence].
    destruct Hd as [Hd Hr]. assert (d0 = d) as -> by congruence.
    simpl in *. lia.
  - intros a Hv. rewrite seller_serializer_update_unfold.
    rewrite apply_seller_update_advance.
    destruct (v_advance_paid vd) as [a0|]; [|congruence].
    destruct Ha as [Ha Hr]. assert (a0 = a) as -> by congruence.
    simpl in *. lia.
  - intros Hv Hnn. rewrite seller_serializer_update_unfold.
    rewrite apply_seller_update_discount.
    destruct (seller_assigned_frame o vd) as (_ & _ & _ & _ & -> & _).
    destruct (v_discount_price vd) as [d0|]; [destruct Hd; congruence|].
    simpl in *. lia.
  - intros Hv Hnn. rewrite seller_serializer_update_unfold.
    rewrite apply_seller_update_advance.
    destruct (v_advance_paid vd) as [a0|]; [destruct Ha; congruence|].
    simpl. lia.
Qed.

Lemma seller_update_stores_supplied_values_witness :
  ∃ db' o',
    SellerUpdateServiceOrderView_update plain_slugify 739001 booked_db bob
      "bob-roy" "ORD00001" (set_data_discount 12345 (set_data_advance 777 no_update))
      = Ok (db', RespOrder o')
    ∧ discount_price o' = 12345
    ∧ advance_paid o' = 777.
Proof.
  destruct (SellerUpdateServiceOrderView_update plain_slugify 739001 booked_db bob
      "bob-roy" "ORD00001" (set_data_discount 12345 (set_data_advance 777 no_update)))
    as [[db' r]|e] eqn:E; [|vm_compute in E; discriminate].
  destruct (seller_update_stores_supplied_values _ _ _ _ _ _ _ _ _ E)
    as (o & o' & _ & -> & _ & _ & _ & Hd & Ha & _).
  exists db', o'. split; [reflexivity|].
  split; [exact (proj1 (Hd 12345 eq_refl))|exact (proj1 (Ha 777 eq_refl))].
Defined.

(** X5. The seller update is open to the seller of the order as long as
    the order is not cancelled: a success implies both, and for an order
    that is found the view answers [ForbiddenError] to anyone else and on a
    cancelled order. A completed order can still be updated. *)
Theorem seller_update_gate :
  (∀ slugify today db u slug oid data db' r,
     SellerUpdateServiceOrderView_update slugify today db u slug oid data
       = Ok (db', r) →
     ∃ o, orders db !! oid = Some o ∧ seller o = user_id u ∧ status o ≠ cancelled)
  ∧ (∀ slugify today db u slug oid data s o,
       get_user_by_slug_or_404 slugify db slug Seller = Ok s →
       get_order_or_404 db oid seller s = Ok o →
       seller o ≠ user_id u ∨ status o = cancelled →
       SellerUpdateServiceOrderView_update slugify today db u slug oid data
       = Err ForbiddenError)
  ∧ (∀ slugify today db u slug oid s o,
       get_user_by_slug_or_404 slugify db slug Seller = Ok s →
       get_order_or_404 db oid seller s = Ok o →
       seller o = user_id u →
       user_type u = Seller →
       status o = completed →
       discount_price o <= total_amount o →
       ∃ o', SellerUpdateServiceOrderView_update slugify today db u slug oid no_update
             = Ok (save o' db, RespOrder o')
             ∧ status o' = completed).
Proof.
  split_and!.
  - intros * H. apply SellerUpdateServiceOrderView_update_Ok in H
      as (o & vd & Hget & _).
    exists o. by apply SellerUpdateServiceOrderView_get_object_Ok in Hget.
  - intros * Hs Ho Hc.
    unfold SellerUpdateServiceOrderView_update,
      SellerUpdateServiceOrderView_get_object.
    rewrite Hs. simpl. rewrite Ho. simpl.
    destruct (decide (seller o = user_id u)) as [Hu|Hu].
    + rewrite (bool_decide_eq_true_2 (seller o = user_id u)) by done. simpl.
      destruct Hc as [Hc|Hc]; [by destruct Hc|].
      rewrite (bool_decide_eq_true_2 (status o = cancelled)) by done. done.
    + rewrite (bool_decide_eq_false_2 (seller o = user_id u)) by done. done.
  - intros * Hs Ho Hu Ht Hst Hle.
    eexists. split.
    + unfold SellerUpdateServiceOrderView_update,
        SellerUpdateServiceOrderView_get_object.
      rewrite Hs. simpl. rewrite Ho. simpl.
      rewrite (bool_decide_eq_true_2 (seller o = user_id u)) by done. simpl.
      rewrite (bool_decide_eq_false_2 (status o = cancelled))
        by (rewrite Hst; discriminate).
      simpl.
      unfold seller_validate.
      rewrite (bool_decide_eq_true_2 (user_type u = Seller)) by done. simpl.
      rewrite bool_decide_eq_false_2 by lia. simpl. reflexivity.
    + destruct (seller_serializer_update_frame today o
                  (mkSellerValidatedData None None Omitted Omitted))
        as (_ & _ & _ & -> & _). done.
Qed.

Lemma seller_update_gate_witness :
  ∃ o,
    get_user_by_slug_or_404 plain_slugify cancelled_db "bob-roy" Seller = Ok bob
    ∧ get_order_or_404 cancelled_db "ORD00001" seller bob = Ok o
    ∧ status o = cancelled
    ∧ SellerUpdateServiceOrderView_update plain_slugify 739002 cancelled_db bob
        "bob-roy" "ORD00001" (set_data_advance 10000 no_update)
      = Err ForbiddenError.
Proof.
  assert (get_user_by_slug_or_404 plain_slugify cancelled_db "bob-roy" Seller
          = Ok bob) as Hs by reflexivity.
  destruct (get_order_or_404 cancelled_db "ORD00001" seller bob) as [o|e] eqn:E;
    [|vm_compute in E; discriminate].
  assert (status o = cancelled) as Hc.
  { vm_compute in E. injection E as <-. reflexivity. }
  exists o. split; [exact Hs|]. split; [reflexivity|]. split; [exact Hc|].
  exact (proj1 (proj2 seller_update_gate) plain_slugify 739002 cancelled_db bob
           "bob-roy" "ORD00001" (set_data_advance 10000 no_update) bob o
           Hs E (or_intror Hc)).
Defined.

(** ** Looking users up by their slug *)

Lemma find_first {A} (f : A → bool) (l : list A) (x : A) :
  find f l = Some x →
  ∃ pre post, l = (pre ++ x :: post)%list ∧ f x = true
              ∧ ∀ v, v ∈ pre → f v = false.
Proof.
  induction l as [|a l IH]; simpl; [done|].
  destruct (f a) eqn:Ha.
  - intros [= ->]. exists [], l. split; [done|]. split; [done|].
    intros v Hv. by apply elem_of_nil in Hv.
  - intros H. destruct (IH H) as (pre & post & -> & Hx & Hpre).
    exists (a :: pre), post. split; [done|]. split; [done|].
    intros v Hv. apply elem_of_cons in Hv as [->|Hv]; auto.
Qed.

Lemma find_none_all {A} (f : A → bool) (l : list A) :
  find f l = None ↔ ∀ v, v ∈ l → f v = false.
Proof.
  induction l as [|a l IH]; simpl.
  - split; [|done]. intros _ v Hv. by apply elem_of_nil in Hv.
  - destruct (f a) eqn:Ha.
    + split; [done|]. intros H. specialize (H a (proj2 (elem_of_cons _ _ _) (or_introl eq_refl))). congruence.
    + rewrite IH. split.
      * intros H v Hv. apply elem_of_cons in Hv as [->|Hv]; auto.
      * intros H v Hv. apply H. apply elem_of_cons. by right.
Qed.

Lemma get_user_by_slug_or_404_Ok slugify db slug role u :
  get_user_by_slug_or_404 slugify db slug role = Ok u →
  u ∈ users db ∧ user_type u = role ∧ get_profile_slug slugify u = slug.
Proof.
  unfold get_user_by_slug_or_404.
  destruct (find _ _) as [x|] eqn:E; [|done]. intros [= ->].
  apply find_some in E as [Hin Hf]. apply bool_decide_eq_true in Hf.
  apply list_elem_of_In in Hin. apply list_elem_of_filter in Hin as [Hr Hin]. done.
Qed.

(** X6. The slug lookup returns the first user, in the order the table is
    read, that has the requested role and the requested slug, and answers
    [NotFoundError], and nothing else, exactly when no user has both. *)
Theorem get_user_by_slug_first_match :
  ∀ slugify db slug role,
    (∀ u, get_user_by_slug_or_404 slugify db slug role = Ok u →
          ∃ pre post,
            users db = (pre ++ u :: post)%list
            ∧ user_type u = role
            ∧ get_profile_slug slugify u = slug
            ∧ ∀ v, v ∈ pre → user_type v = role →
                   get_profile_slug slugify v ≠ slug)
    ∧ (get_user_by_slug_or_404 slugify db slug role = Err NotFoundError
       ↔ ∀ v, v ∈ users db → user_type v = role →
              get_profile_slug slugify v ≠ slug)
    ∧ (∀ e, get_user_by_slug_or_404 slugify db slug role = Err e →
            e = NotFoundError).
Proof.
  intros slugify db slug role. unfold get_user_by_slug_or_404.
  generalize (users db). intros l. split_and!.
  - intros u. induction l as [|a l IH]; [done|].
    rewrite filter_cons. destruct (decide (user_type a = role)) as [Hr|Hr].
    + simpl. destruct (bool_decide (get_profile_slug slugify a = slug)) eqn:Hs.
      * intros [= ->]. apply bool_decide_eq_true in Hs.
        exists [], l. split_and!; try done.
        intros v Hv. by apply elem_of_nil in Hv.
      * intros H. destruct (IH H) as (pre & post & -> & Hu & Hsl & Hpre).
        exists (a :: pre), post. split_and!; try done.
        intros v Hv Hvr. apply elem_of_cons in Hv as [->|Hv]; [|by apply Hpre].
        by apply bool_decide_eq_false in Hs.
    + intros H. destruct (IH H) as (pre & post & -> & Hu & Hsl & Hpre).
      exists (a :: pre), post. split_and!; try done.
      intros v Hv Hvr. apply elem_of_cons in Hv as [->|Hv]; [done|by apply Hpre].
  - destruct (find _ _) as [x|] eqn:E.
    + split; [done|]. intros H.
      apply find_some in E as [Hin Hf]. apply bool_decide_eq_true in Hf.
      apply list_elem_of_In in Hin. apply list_elem_of_filter in Hin as [Hr Hin].
      by destruct (H x Hin Hr).
    + split; [|done]. intros _ v Hv Hr Hs.
      apply find_none_all with (v := v) in E.
      * by apply bool_decide_eq_false in E.
      * by apply list_elem_of_filter.
  - intros e. destruct (find _ _); [done|]. by intros [= <-].
Qed.

Lemma get_user_by_slug_first_match_witness :
  get_user_by_slug_or_404 plain_slugify shadowed_db "alice-khan" Customer
    = Ok early_alice
  ∧ ∃ pre post,
      users shadowed_db = (pre ++ early_alice :: post)%list
      ∧ alice ∈ post
      ∧ get_profile_slug plain_slugify alice = "alice-khan".
Proof.
  assert (get_user_by_slug_or_404 plain_slugify shadowed_db "alice-khan" Customer
          = Ok early_alice) as H by reflexivity.
  split; [exact H|].
  destruct (proj1 (get_user_by_slug_first_match plain_slugify shadowed_db
                     "alice-khan" Customer) early_alice H)
    as (pre & post & Hl & _ & _ & Hpre).
  exists pre, post. split; [exact Hl|]. split; [|reflexivity].
  destruct pre as [|p pre].
  - simpl in Hl. injection Hl as <-. apply elem_of_cons. by left.
  - exfalso. simpl in Hl. injection Hl as <- _.
    exact (Hpre early_alice (proj2 (elem_of_cons _ _ _) (or_introl eq_refl))
             eq_refl eq_refl).
Defined.

(** X7. The buyer endpoints resolve the buyer from the slug before anything
    else: an order whose buyer is not the user the slug resolves to is
    answered [NotFoundError] by the update and by the delete, whoever asks,
    and a creation under that slug by anyone else is answered
    [ForbiddenError]. A customer listed behind a namesake can therefore
    neither reach her orders nor create one. *)
Theorem buyer_endpoints_follow_the_slug :
  ∀ slugify db slug b,
    get_user_by_slug_or_404 slugify db slug Customer = Ok b →
    (∀ today u oid o f,
       orders db !! oid = Some o →
       buyer o ≠ user_id b →
       UpdateServiceOrderView_update slugify today db u slug oid f
         = Err NotFoundError
       ∧ DeleteServiceOrderView_destroy slugify db u slug oid = Err NotFoundError)
    ∧ (∀ u eid validated new_id,
         user_id u ≠ user_id b →
         CreateServiceOrderView_create slugify db u slug eid validated new_id
         = Err ForbiddenError).
Proof.
  intros slugify db slug b Hb. split.
  - intros today u oid o f Ho Hne.
    assert (get_order_or_404 db oid buyer b = Err NotFoundError) as Hg.
    { unfold get_order_or_404. rewrite Ho. by rewrite decide_False. }
    unfold UpdateServiceOrderView_update, UpdateServiceOrderView_get_object,
      DeleteServiceOrderView_destroy, DeleteServiceOrderView_get_object.
    rewrite Hb. simpl. rewrite Hg. done.
  - intros u eid validated new_id Hne. unfold CreateServiceOrderView_create.
    rewrite Hb. simpl. rewrite bool_decide_eq_false_2 by done. done.
Qed.

Lemma buyer_endpoints_follow_the_slug_witness :
  ∃ o,
    get_user_by_slug_or_404 plain_slugify shadowed_db "alice-khan" Customer
      = Ok early_alice
    ∧ orders shadowed_db !! "ORD00001" = Some o
    ∧ buyer o = user_id alice
    ∧ get_profile_slug plain_slugify alice = "alice-khan"
    ∧ UpdateServiceOrderView_update plain_slugify 739001 shadowed_db alice
        "alice-khan" "ORD00001" (Value "cancelled") = Err NotFoundError
    ∧ DeleteServiceOrderView_destroy plain_slugify shadowed_db alice
        "alice-khan" "ORD00001" = Err NotFoundError
    ∧ CreateServiceOrderView_create plain_slugify shadowed_db alice "alice-khan"
        (Some "EVT00001") (Some sample_booking) "ORD00002" = Err ForbiddenError.
Proof.
  assert (get_user_by_slug_or_404 plain_slugify shadowed_db "alice-khan" Customer
          = Ok early_alice) as Hb by reflexivity.
  destruct (orders shadowed_db !! "ORD00001") as [o|] eqn:E;
    [|vm_compute in E; discriminate].
  assert (buyer o = user_id alice ∧ buyer o ≠ user_id early_alice) as [Hu Hne].
  { vm_compute in E. injection E as <-. split; [reflexivity|discriminate]. }
  destruct (buyer_endpoints_follow_the_slug plain_slugify shadowed_db
              "alice-khan" early_alice Hb) as [Hord Hcre].
  destruct (Hord 739001 alice "ORD00001" o (Value "cancelled") E Hne) as [H1 H2].
  exists o. split; [exact Hb|]. split; [reflexivity|]. split; [exact Hu|].
  split; [reflexivity|]. split; [exact H1|]. split; [exact H2|].
  apply Hcre. discriminate.
Defined.

Lemma related_user_Some db pk u :
  related_user db pk = Some u → u ∈ users db ∧ user_id u = pk.
Proof.
  unfold related_user. intros H. apply find_some in H as [Hin Hf].
  apply bool_decide_eq_true in Hf. by apply list_elem_of_In in Hin.
Qed.

(** X8. Where no two customers share a slug, the [buyer_slug] a response
    shows for an order leads back to it: the slug resolves to the buyer of
    the order, and the order is found under that buyer. *)
Theorem buyer_slug_leads_back_to_order :
  ∀ slugify db oid o b slug,
    customer_slugs_unique slugify db →
    orders db !! oid = Some o →
    related_user db (buyer o) = Some b →
    user_type b = Customer →
    get_buyer_slug slugify db o = Some slug →
    ∃ b', get_user_by_slug_or_404 slugify db slug Customer = Ok b'
          ∧ user_id b' = buyer o
          ∧ get_order_or_404 db oid buyer b' = Ok o.
Proof.
  intros slugify db oid o b slug Huniq Ho Hb Ht Hslug.
  unfold get_buyer_slug in Hslug. rewrite Hb in Hslug. simpl in Hslug.
  injection Hslug as Hslug.
  apply related_user_Some in Hb as [Hin Hid].
  destruct (get_user_by_slug_or_404 slugify db slug Customer) as [b'|e] eqn:E.
  - apply get_user_by_slug_or_404_Ok in E as (Hin' & Ht' & Hs').
    assert (user_id b' = user_id b) as Heq.
    { apply Huniq; try done. by rewrite Hs'. }
    exists b'. split; [done|]. split; [congruence|].
    apply get_order_or_404_intro; [done|congruence].
  - exfalso. unfold get_user_by_slug_or_404 in E.
    destruct (find _ _) eqn:Ef; [done|].
    apply find_none_all with (v := b) in Ef.
    + apply bool_decide_eq_false in Ef. done.
    + by apply list_elem_of_filter.
Qed.

Lemma buyer_slug_leads_back_to_order_witness :
  ∃ o,
    customer_slugs_unique plain_slugify booked_db
    ∧ orders booked_db !! "ORD00001" = Some o
    ∧ get_buyer_slug plain_slugify booked_db o = Some "alice-khan"
    ∧ ∃ b', get_user_by_slug_or_404 plain_slugify booked_db "alice-khan" Customer
            = Ok b'
            ∧ get_order_or_404 booked_db "ORD00001" buyer b' = Ok o.
Proof.
  destruct (orders booked_db !! "ORD00001") as [o|] eqn:E;
    [|vm_compute in E; discriminate].
  assert (related_user booked_db (buyer o) = Some alice
          ∧ get_buyer_slug plain_slugify booked_db o = Some "alice-khan")
    as [Hr Hs].
  { vm_compute in E. injection E as <-. split; reflexivity. }
  assert (customer_slugs_unique plain_slugify booked_db) as Hu.
  { intros u v Hu Hv _ _.
    change (users booked_db) with [alice; bob; carol] in Hu, Hv.
    repeat (apply elem_of_cons in Hu as [->|Hu]);
      repeat (apply elem_of_cons in Hv as [->|Hv]);
      try (by apply elem_of_nil in Hu); try (by apply elem_of_nil in Hv);
      vm_compute; congruence. }
  destruct (buyer_slug_leads_back_to_order plain_slugify booked_db "ORD00001" o
              alice "alice-khan" Hu E Hr eq_refl Hs) as (b' & Hb' & _ & Hg).
  exists o. split; [exact Hu|]. split; [reflexivity|]. split; [exact Hs|].
  exists b'. split; [exact Hb'|exact Hg].
Defined.

(** ** Creation and the rows of the table *)

(** X9. The identifier loop answers with the first draw that is not a key
    of the table: every draw before it is taken and it is free; it finds
    none exactly when every draw it looked at is taken. *)
Theorem generate_order_id_first_free :
  ∀ draws (table : gmap string ServiceOrder),
    (∀ i, generate_order_id draws table = Some i →
          ∃ pre post,
            draws = (pre ++ i :: post)%list
            ∧ table !! i = None
            ∧ ∀ j, j ∈ pre → is_Some (table !! j))
    ∧ (generate_order_id draws table = None
       ↔ ∀ j, j ∈ draws → is_Some (table !! j)).
Proof.
  intros draws table. unfold generate_order_id. split.
  - intros i H. apply find_first in H as (pre & post & -> & Hi & Hpre).
    exists pre, post. split; [done|]. split; [by apply bool_decide_eq_true in Hi|].
    intros j Hj. specialize (Hpre j Hj). apply bool_decide_eq_false in Hpre.
    by apply not_eq_None_Some.
  - rewrite find_none_all. split; intros H j Hj; specialize (H j Hj).
    + apply bool_decide_eq_false in H. by apply not_eq_None_Some.
    + apply bool_decide_eq_false_2. by apply not_eq_None_Some.
Qed.

Lemma generate_order_id_first_free_witness :
  generate_order_id ["ORD00001"; "ORD00002"; "ORD00003"] (orders booked_db)
    = Some "ORD00002"
  ∧ is_Some (orders booked_db !! "ORD00001")
  ∧ orders booked_db !! "ORD00002" = None.
Proof.
  assert (generate_order_id ["ORD00001"; "ORD00002"; "ORD00003"] (orders booked_db)
          = Some "ORD00002") as H by (vm_compute; reflexivity).
  split; [exact H|].
  destruct (proj1 (generate_order_id_first_free _ _) _ H)
    as (pre & post & Hl & Hfree & Hpre).
  split; [|exact Hfree].
  destruct pre as [|p pre]; [simpl in Hl; discriminate Hl|].
  simpl in Hl. injection Hl as <- _.
  apply Hpre. apply elem_of_cons. by left.
Defined.

(** X10. A creation request never changes or replaces a row that exists.
    The row it adds sits under the key the identifier loop chose, belongs
    to the requester as buyer and to the seller of the event, and starts
    pending, not agreed, without discount, advance, payment date or invoice
    and not fully paid. *)
Theorem create_adds_one_fresh_row :
  ∀ slugify db u slug eid validated draws,
    (∀ k o,
       orders db !! k = Some o →
       orders (step slugify db (CreateOrder u slug eid validated draws)) !! k
       = Some o)
    ∧ (∀ k o',
         orders db !! k = None →
         orders (step slugify db (CreateOrder u slug eid validated draws)) !! k
         = Some o' →
         generate_order_id draws (orders db) = Some k
         ∧ order_id o' = k
         ∧ buyer o' = user_id u
         ∧ (∃ ev, get_event_or_404 db eid = Ok ev
                  ∧ seller o' = event_seller ev ∧ event o' = event_id ev)
         ∧ status o' = pending ∧ seller_agreed o' = false
         ∧ discount_price o' = 0 ∧ advance_paid o' = 0
         ∧ is_fully_paid o' = false
         ∧ full_payment_date o' = None ∧ invoice_file o' = None).
Proof.
  intros slugify db u slug eid validated draws.
  unfold step. simpl.
  destruct (generate_order_id draws (orders db)) as [new_id|] eqn:Hid; simpl;
    [|split; [done|]; intros k o' Hn Hs; congruence].
  pose proof (generate_order_id_fresh _ _ _ Hid) as Hfresh.
  destruct (CreateServiceOrderView_create slugify db u slug eid validated new_id)
    as [[db' r]|e] eqn:E; [|split; [done|]; intros k o' Hn Hs; congruence].
  apply CreateServiceOrderView_create_Ok in E
    as (b & data & ev & total & lines & Hb & Hu & _ & Hev & _ & -> & _).
  split.
  - intros k o Ho. rewrite save_lookup. simpl.
    destruct (decide (new_id = k)) as [->|]; [congruence|done].
  - intros k o' Hn. rewrite save_lookup. simpl.
    destruct (decide (new_id = k)) as [->|]; [|congruence].
    intros [= <-]. simpl. split_and!; try done. exists ev. done.
Qed.

Lemma create_adds_one_fresh_row_witness :
  ∃ o o',
    orders booked_db !! "ORD00001" = Some o
    ∧ orders (step plain_slugify booked_db
                (CreateOrder carol "carol-das" (Some "EVT00001")
                   (Some sample_booking) ["ORD00001"; "ORD00002"])) !! "ORD00001"
      = Some o
    ∧ orders (step plain_slugify booked_db
                (CreateOrder carol "carol-das" (Some "EVT00001")
                   (Some sample_booking) ["ORD00001"; "ORD00002"])) !! "ORD00002"
      = Some o'
    ∧ buyer o' = user_id carol
    ∧ status o' = pending.
Proof.
  destruct (orders booked_db !! "ORD00001") as [o|] eqn:E;
    [|vm_compute in E; discriminate].
  destruct (orders (step plain_slugify booked_db
                (CreateOrder carol "carol-das" (Some "EVT00001")
                   (Some sample_booking) ["ORD00001"; "ORD00002"])) !! "ORD00002")
    as [o'|] eqn:E'; [|vm_compute in E'; discriminate].
  destruct (create_adds_one_fresh_row plain_slugify booked_db carol "carol-das"
              (Some "EVT00001") (Some sample_booking) ["ORD00001"; "ORD00002"])
    as [Hkeep Hnew].
  assert (orders booked_db !! "ORD00002" = None) as Hn by reflexivity.
  destruct (Hnew "ORD00002" o' Hn E') as (_ & _ & Hb & _ & Hs & _).
  exists o, o'. split; [reflexivity|]. split; [exact (Hkeep _ _ E)|].
  split; [reflexivity|]. split; [exact Hb|exact Hs].
Defined.

Section WrittenKeys.

Variable slugify : string → string.

(** A request leaves the database alone, or writes one row under the key
    it addresses or, for a creation, under a free key, or deletes the row it
    addresses. *)
Lemma step_written db req :
  keys_ok db →
  step slugify db req = db
  ∨ (∃ o1, step slugify db req = save o1 db
           ∧ ((addressed req = Some (order_id o1)
               ∧ is_Some (orders db !! order_id o1))
              ∨ (addressed req = None ∧ orders db !! order_id o1 = None)))
  ∨ (∃ o, step slugify db req = delete_order o db
          ∧ addressed req = Some (order_id o)).
Proof.
  intros Hkeys. unfold step.
  destruct (dispatch slugify db req) as [[[db' r]|e]|] eqn:Hd; [|by left..].
  destruct req; simpl in Hd.
  - destruct (generate_order_id draws (orders db)) as [new_id|] eqn:Hid;
      simplify_eq/=.
    apply generate_order_id_fresh in Hid.
    apply CreateServiceOrderView_create_Ok in Hd
      as (b & data & ev & total & lines & _ & _ & _ & _ & _ & -> & _).
    right; left. eexists. split; [done|]. right. done.
  - simplify_eq. apply UpdateServiceOrderView_update_Ok in Hd
      as (o & o1 & Hget & -> & _ & Hcase).
    apply UpdateServiceOrderView_get_object_Ok in Hget as (Ho & _ & _).
    pose proof (Hkeys _ _ Ho) as Hid.
    right; left. exists o1. split; [done|]. left. simpl.
    assert (order_id o1 = oid) as ->; [|by eauto].
    destruct Hcase as [[_ ->]|[_ ->]]; [done|].
    by rewrite (proj1 (completed_order_frame today o)).
  - simplify_eq. apply DeleteServiceOrderView_destroy_Ok in Hd
      as (o & Hget & Hcase).
    apply DeleteServiceOrderView_get_object_Ok in Hget as (Ho & _).
    pose proof (Hkeys _ _ Ho) as Hid.
    destruct Hcase as [(_ & _ & -> & _)|(_ & _ & -> & _)].
    + right; left. eexists. split; [done|]. left. simpl. rewrite Hid. eauto.
    + right; right. exists o. split; [done|]. simpl. by rewrite Hid.
  - simplify_eq. apply AcceptOrderView_update_Ok in Hd
      as (o & Ho & _ & -> & _).
    pose proof (Hkeys _ _ Ho) as Hid.
    right; left. eexists. split; [done|]. left. simpl. rewrite Hid. eauto.
  - simplify_eq. apply SellerUpdateServiceOrderView_update_Ok in Hd
      as (o & vd & Hget & _ & _ & -> & _).
    apply SellerUpdateServiceOrderView_get_object_Ok in Hget as (Ho & _ & _).
    pose proof (Hkeys _ _ Ho) as Hid.
    right; left. eexists. split; [done|]. left. simpl.
    rewrite (proj1 (seller_serializer_update_frame today o vd)), Hid. eauto.
Qed.

End WrittenKeys.

(** X11. A request touches one row at most: every row it does not address
    is found afterwards as it was, and only a creation can make a row
    appear under a key that had none. *)
Theorem request_touches_one_row :
  ∀ slugify db req k,
    keys_ok db →
    (∀ o, orders db !! k = Some o →
          addressed req ≠ Some k →
          orders (step slugify db req) !! k = Some o)
    ∧ (orders db !! k = None →
       addressed req ≠ None →
       orders (step slugify db req) !! k = None).
Proof.
  intros slugify db req k Hkeys.
  destruct (step_written slugify db req Hkeys)
    as [-> | [(o1 & -> & Hw) | (o0 & -> & Hw)]].
  - done.
  - split.
    + intros o Ho Hna. rewrite save_lookup.
      destruct (decide (order_id o1 = k)) as [<-|]; [|done].
      destruct Hw as [[Hw _]|[_ Hw]]; congruence.
    + intros Hn Hna. rewrite save_lookup.
      destruct (decide (order_id o1 = k)) as [<-|]; [|done].
      destruct Hw as [[_ [? Hw]]|[Hw _]]; congruence.
  - split.
    + intros o Ho Hna. rewrite delete_order_lookup.
      destruct (decide (order_id o0 = k)) as [<-|]; [congruence|done].
    + intros Hn Hna. rewrite delete_order_lookup. by case_decide.
Qed.

Lemma request_touches_one_row_witness :
  ∃ o,
    keys_ok paid_db
    ∧ orders paid_db !! "ORD00001" = Some o
    ∧ orders (step plain_slugify paid_db
                (SellerUpdate 739009 bob "bob-roy" "ORD00002"
                   (set_data_advance 100 no_update))) !! "ORD00001" = Some o
    ∧ orders (step plain_slugify paid_db
                (AcceptOrder bob "bob-roy" "ORD00002")) !! "ORD00002" = None.
Proof.
  assert (keys_ok paid_db) as Hk by (apply run_db_ok, run_db_ok, sample_db_ok).
  destruct (orders paid_db !! "ORD00001") as [o|] eqn:E;
    [|vm_compute in E; discriminate].
  exists o. split; [exact Hk|]. split; [reflexivity|]. split.
  - apply (proj1 (request_touches_one_row plain_slugify paid_db
                    (SellerUpdate 739009 bob "bob-roy" "ORD00002"
                       (set_data_advance 100 no_update)) "ORD00001" Hk) o E).
    discriminate.
  - apply (proj2 (request_touches_one_row plain_slugify paid_db
                    (AcceptOrder bob "bob-roy" "ORD00002") "ORD00002" Hk)).
    + reflexivity.
    + discriminate.
Defined.


(** ** What holds along every run *)

Lemma completed_order_identity today o : same_identity o (completed_order today o).
Proof.
  unfold completed_order, stamp_full_payment_date, same_identity. simpl.
  case_decide; destruct (full_payment_date o); simpl; split_and!; reflexivity.
Qed.

Lemma same_identity_refl o : same_identity o o.
Proof. unfold same_identity. split_and!; reflexivity. Qed.

Lemma order_change_identity req o o' :
  order_change req o o' → same_identity o o'.
Proof.
  intros Hc. destruct req; simpl in Hc.
  - subst. apply same_identity_refl.
  - destruct Hc as [->|[_ [->| ->]]];
      [apply same_identity_refl| |apply completed_order_identity].
    unfold same_identity. split_and!; reflexivity.
  - destruct Hc as [->|[_ ->]]; [apply same_identity_refl|].
    unfold same_identity. split_and!; reflexivity.
  - destruct Hc as [->| ->]; [apply same_identity_refl|].
    unfold same_identity. split_and!; reflexivity.
  - destruct Hc as [->|(vd & _ & _ & _ & ->)]; [apply same_identity_refl|].
    apply seller_serializer_update_identity.
Qed.

Lemma seller_serializer_update_agreed today o vd :
  seller_agreed (seller_serializer_update today o vd) = seller_agreed o.
Proof.
  rewrite seller_serializer_update_unfold.
  destruct (apply_seller_update_frame today
    (Some (default (discount_price o) (v_discount_price vd)))
    (Some (default (advance_paid o) (v_advance_paid vd)))
    (seller_assigned o vd)) as (_ & _ & _ & _ & _ & _ & _ & ->).
  unfold seller_assigned.
  destruct (field_get (v_invoice_file vd) None),
    (field_get (v_full_payment_date vd) (full_payment_date o)); done.
Qed.

Lemma completed_order_agreed today o :
  seller_agreed (completed_order today o) = seller_agreed o.
Proof.
  unfold completed_order, stamp_full_payment_date. simpl.
  case_decide; destruct (full_payment_date o); done.
Qed.

Lemma order_change_moved_on req o o' : order_change req o o' → moved_on o o'.
Proof.
  intros Hc. unfold moved_on. destruct req; simpl in Hc.
  - by subst.
  - destruct Hc as [->|[_ [->| ->]]]; [done|done|].
    destruct (completed_order_frame today o) as (_ & _ & _ & -> & _).
    by rewrite completed_order_agreed.
  - by destruct Hc as [->|[_ ->]].
  - by destruct Hc as [->| ->].
  - destruct Hc as [->|(vd & _ & _ & _ & ->)]; [done|].
    destruct (seller_serializer_update_frame today o vd) as (_ & _ & _ & -> & _).
    by rewrite seller_serializer_update_agreed.
Qed.

Lemma order_change_agreement_ok req o o' :
  agreement_ok o → order_change req o o' → agreement_ok o'.
Proof.
  intros [Hp Ha] Hc. unfold agreement_ok. destruct req; simpl in Hc.
  - by subst.
  - destruct Hc as [->|[_ [->| ->]]]; [done|done|].
    destruct (completed_order_frame today o) as (_ & _ & _ & -> & _). done.
  - by destruct Hc as [->|[_ ->]].
  - by destruct Hc as [->| ->].
  - destruct Hc as [->|(vd & _ & _ & _ & ->)]; [done|].
    destruct (seller_serializer_update_frame today o vd) as (_ & _ & _ & -> & _).
    by rewrite seller_serializer_update_agreed.
Qed.

Section Runs.

Variable slugify : string → string.

Lemma run_keys_ok reqs db : keys_ok db → keys_ok (run slugify db reqs).
Proof.
  revert db. induction reqs as [|req reqs IH]; intros db Hk; simpl; [done|].
  apply IH. by apply step_keys_ok.
Qed.

(** A relation every change respects holds between a row and what it has
    become, as long as the row is there after every request. *)
Lemma run_related (R : ServiceOrder → ServiceOrder → Prop) :
  (∀ o, R o o) →
  (∀ a b c, R a b → R b c → R a c) →
  (∀ req o o', order_change req o o' → R o o') →
  ∀ reqs db k o,
    keys_ok db →
    orders db !! k = Some o →
    (∀ n, is_Some (orders (run slugify db (take n reqs)) !! k)) →
    ∃ o', orders (run slugify db reqs) !! k = Some o' ∧ R o o'.
Proof.
  intros Hrefl Htrans Hstep.
  induction reqs as [|req reqs IH]; intros db k o Hk Ho Hex; simpl.
  - eauto.
  - destruct (Hex 1%nat) as [o1 Ho1]. simpl in Ho1.
    pose proof Ho1 as Hs. apply step_lookup in Hs; [|done].
    destruct Hs as [(o0 & Ho0 & Hch & _)|[Hnone _]]; [|congruence].
    assert (o0 = o) as -> by congruence.
    destruct (IH (step slugify db req) k o1) as (o' & Ho' & Hr).
    + by apply step_keys_ok.
    + done.
    + intros n. apply (Hex (S n)).
    + exists o'. split; [done|]. eapply Htrans; [by eapply Hstep|done].
Qed.

(** A property of rows that every change keeps and every created row has
    holds of all rows after any run. *)
Lemma run_all (P : ServiceOrder → Prop) :
  (∀ req o o', P o → order_change req o o' → P o') →
  (∀ k ev b nm data total lines, P (created_order k ev b nm data total lines)) →
  ∀ reqs db,
    keys_ok db →
    (∀ k o, orders db !! k = Some o → P o) →
    ∀ k o, orders (run slugify db reqs) !! k = Some o → P o.
Proof.
  intros Hkeep Hnew.
  induction reqs as [|req reqs IH]; intros db Hk Hall k o; simpl; [by apply Hall|].
  apply IH; [by apply step_keys_ok|].
  intros k1 o1 H1. apply step_lookup in H1; [|done].
  destruct H1 as [(o0 & Ho0 & Hch & _)|(_ & H1)].
  - eapply Hkeep; [by eapply Hall|done].
  - destruct H1 as (ev & b & nm & data & total & lines & -> & _). apply Hnew.
Qed.

End Runs.

(** X12. What an order is about does not change after creation: along any
    sequence of requests, as long as the row is there, its key, seller,
    buyer, event, buyer name, date, time, place, selected services and
    total amount are those it started with. *)
Theorem creation_attributes_never_change :
  ∀ slugify reqs db k o,
    keys_ok db →
    orders db !! k = Some o →
    (∀ n, is_Some (orders (run slugify db (take n reqs)) !! k)) →
    ∃ o', orders (run slugify db reqs) !! k = Some o'
          ∧ order_id o' = order_id o ∧ seller o' = seller o ∧ buyer o' = buyer o
          ∧ event o' = event o ∧ buyer_name o' = buyer_name o
          ∧ event_date o' = event_date o ∧ event_time o' = event_time o
          ∧ location o' = location o
          ∧ selected_services o' = selected_services o
          ∧ total_amount o' = total_amount o.
Proof.
  intros slugify reqs db k o Hk Ho Hex.
  apply (run_related slugify same_identity same_identity_refl
           same_identity_trans order_change_identity reqs db k o Hk Ho Hex).
Qed.

Lemma creation_attributes_never_change_witness :
  ∃ o o',
    keys_ok paid_db
    ∧ orders paid_db !! "ORD00001" = Some o
    ∧ orders (run plain_slugify paid_db later_requests) !! "ORD00001" = Some o'
    ∧ total_amount o' = total_amount o
    ∧ selected_services o' = selected_services o
    ∧ status o' ≠ status o.
Proof.
  assert (keys_ok paid_db) as Hk by (apply run_db_ok, run_db_ok, sample_db_ok).
  destruct (orders paid_db !! "ORD00001") as [o|] eqn:E;
    [|vm_compute in E; discriminate].
  assert (∀ n, is_Some (orders (run plain_slugify paid_db (take n later_requests))
                          !! "ORD00001")) as Hex.
  { intros [|[|[|n]]]; vm_compute; eauto. }
  destruct (creation_attributes_never_change plain_slugify later_requests paid_db
              "ORD00001" o Hk E Hex)
    as (o' & E' & _ & _ & _ & _ & _ & _ & _ & _ & Hs & Ht).
  exists o, o'. split; [exact Hk|]. split; [reflexivity|]. split; [exact E'|].
  split; [exact Ht|]. split; [exact Hs|].
  vm_compute in E. injection E as <-.
  vm_compute in E'. injection E' as <-. discriminate.
Defined.

(** X13. No request brings an order back to [pending] or withdraws the
    seller's agreement, along any sequence of requests while the row is
    there; and in a ledger that started without orders a pending order is
    never agreed and an accepted order always is. *)
Theorem status_never_returns_to_pending :
  (∀ slugify reqs db k o,
     keys_ok db →
     orders db !! k = Some o →
     (∀ n, is_Some (orders (run slugify db (take n reqs)) !! k)) →
     ∃ o', orders (run slugify db reqs) !! k = Some o'
           ∧ (status o ≠ pending → status o' ≠ pending)
           ∧ (seller_agreed o = true → seller_agreed o' = true))
  ∧ (∀ slugify reqs db k o,
       orders db = ∅ →
       orders (run slugify db reqs) !! k = Some o →
       (status o = pending → seller_agreed o = false)
       ∧ (status o = accepted → seller_agreed o = true)).
Proof.
  split.
  - intros slugify reqs db k o Hk Ho Hex.
    apply (run_related slugify moved_on); try done.
    + intros a b c [H1 H2] [H3 H4]. split; auto.
    + apply order_change_moved_on.
  - intros slugify reqs db k o He Hl.
    apply (run_all slugify agreement_ok order_change_agreement_ok) with reqs db k.
    + done.
    + intros k0 o0. rewrite He, lookup_empty. done.
    + intros k0 o0. rewrite He, lookup_empty. done.
    + done.
Qed.

Lemma status_never_returns_to_pending_witness :
  ∃ o,
    orders sample_db = ∅
    ∧ orders (run plain_slugify sample_db
                [sample_create; AcceptOrder bob "bob-roy" "ORD00001"]) !! "ORD00001"
      = Some o
    ∧ status o = accepted
    ∧ seller_agreed o = true.
Proof.
  destruct (orders (run plain_slugify sample_db
                [sample_create; AcceptOrder bob "bob-roy" "ORD00001"]) !! "ORD00001")
    as [o|] eqn:E; [|vm_compute in E; discriminate].
  assert (status o = accepted) as Hs.
  { vm_compute in E. injection E as <-. reflexivity. }
  exists o. split; [reflexivity|]. split; [reflexivity|]. split; [exact Hs|].
  exact (proj2 (proj2 status_never_returns_to_pending plain_slugify _ sample_db
                  "ORD00001" o eq_refl E) Hs).
Defined.

(** ** Paid in full and the balance *)

Lemma order_ok_paid_iff_no_balance o :
  0 <= discount_price o <= total_amount o →
  0 <= advance_paid o →
  fully_paid_rule o ↔ remaining_amount o = 0.
Proof.
  intros Hd Ha. unfold fully_paid_rule, net_total, remaining_amount.
  rewrite !decimal_or_zero. case_decide; lia.
Qed.

(** X14. On an order whose total is not negative, [apply_seller_update]
    leaves [is_fully_paid] true exactly when [remaining_amount] then reads
    zero; and in a ledger that started without orders, with catalogue
    prices not negative, an order flagged fully paid never shows a
    balance. *)
Theorem fully_paid_means_no_balance :
  (∀ today d a o,
     0 <= total_amount o →
     is_fully_paid (apply_seller_update today d a o) = true
     ↔ remaining_amount (apply_seller_update today d a o) = 0)
  ∧ (∀ slugify db reqs k o,
       catalog_ok db →
       orders db = ∅ →
       orders (run slugify db reqs) !! k = Some o →
       is_fully_paid o = true →
       remaining_amount o = 0).
Proof.
  split.
  - intros today d a o Ht.
    destruct (apply_seller_update_ok today d a o Ht) as (_ & Hd & Ha & _).
    pose proof (apply_seller_update_fully_paid today d a o) as Hp. simpl in Hp.
    rewrite Hp. by apply order_ok_paid_iff_no_balance.
  - intros slugify db reqs k o Hc He Hl Hp.
    destruct (run_db_ok slugify db reqs (db_ok_no_orders db Hc He)) as (_ & _ & Hok).
    destruct (Hok _ _ Hl) as (_ & Hd & Ha & Hr).
    apply order_ok_paid_iff_no_balance; auto.
Qed.

Lemma fully_paid_means_no_balance_witness :
  0 <= total_amount sample_order
  ∧ is_fully_paid (apply_seller_update 739001 (Some 10000) (Some 40000) sample_order)
    = true
  ∧ remaining_amount (apply_seller_update 739001 (Some 10000) (Some 40000) sample_order)
    = 0
  ∧ remaining_amount (apply_seller_update 739001 (Some 10000) (Some 39999) sample_order)
    ≠ 0.
Proof.
  assert (0 <= total_amount sample_order) as Ht by (vm_compute; discriminate).
  split; [exact Ht|]. split; [reflexivity|]. split.
  - apply (proj1 (proj1 fully_paid_means_no_balance 739001 (Some 10000)
                    (Some 40000) sample_order Ht)). reflexivity.
  - intros H.
    pose proof (proj2 (proj1 fully_paid_means_no_balance 739001 (Some 10000)
                         (Some 39999) sample_order Ht) H) as Hp.
    vm_compute in Hp. discriminate Hp.
Defined.

(** ** Recomputation settles *)

Lemma ServiceOrder_eq (o1 o2 : ServiceOrder) :
  same_identity o1 o2 →
  seller_agreed o2 = seller_agreed o1 →
  status o2 = status o1 →
  discount_price o2 = discount_price o1 →
  advance_paid o2 = advance_paid o1 →
  is_fully_paid o2 = is_fully_paid o1 →
  full_payment_date o2 = full_payment_date o1 →
  invoice_file o2 = invoice_file o1 →
  o2 = o1.
Proof.
  unfold same_identity. destruct o1, o2; simpl. intros.
  destruct_and!. by subst.
Qed.

(** X15. Applying the seller's figures is idempotent: applying the same
    figures again, or recomputing without figures, on any later day returns
    the record unchanged, the payment date included. *)
Theorem apply_seller_update_settles :
  ∀ today later d a o,
    apply_seller_update later d a (apply_seller_update today d a o)
      = apply_seller_update today d a o
    ∧ apply_seller_update later None None (apply_seller_update today d a o)
      = apply_seller_update today d a o.
Proof.
  intros today later d a o.
  set (o1 := apply_seller_update today d a o).
  assert (Hsettle : ∀ d' a',
    Z.min (Z.max 0 (default (discount_price o1) d')) (total_amount o1)
      = discount_price o1 →
    Z.max 0 (default (advance_paid o1) a') = advance_paid o1 →
    apply_seller_update later d' a' o1 = o1).
  { intros d' a' Hd Ha.
    pose proof (apply_seller_update_identity later d' a' o1) as Hid.
    destruct (apply_seller_update_frame later d' a' o1)
      as (_ & _ & _ & Hst & Htot & Hinv & _ & Hag).
    pose proof (apply_seller_update_discount later d' a' o1) as Hd2.
    pose proof (apply_seller_update_advance later d' a' o1) as Ha2.
    rewrite Hd in Hd2. rewrite Ha in Ha2.
    pose proof (apply_seller_update_fully_paid later d' a' o1) as Hp2.
    pose proof (apply_seller_update_fully_paid today d a o) as Hp1.
    pose proof (apply_seller_update_date later d' a' o1) as Hdt2.
    pose proof (apply_seller_update_date today d a o) as Hdt1.
    simpl in *. fold o1 in Hp1, Hdt1.
    assert (is_fully_paid (apply_seller_update later d' a' o1) = is_fully_paid o1)
      as Hpaid.
    { unfold fully_paid_rule, net_total in Hp1, Hp2.
      rewrite Hd2, Ha2, Htot in Hp2.
      destruct (is_fully_paid (apply_seller_update later d' a' o1)),
        (is_fully_paid o1); try done.
      - symmetry. apply Hp1, Hp2. done.
      - apply Hp2, Hp1. done. }
    apply ServiceOrder_eq; try done.
    rewrite Hdt2, Hpaid.
    destruct (full_payment_date o1) as [s|] eqn:E1; [done|].
    destruct (is_fully_paid o1); [|done].
    destruct (full_payment_date o); done. }
  assert (Hd1 : discount_price o1
                = Z.min (Z.max 0 (default (discount_price o) d)) (total_amount o))
    by apply apply_seller_update_discount.
  assert (Ha1 : advance_paid o1 = Z.max 0 (default (advance_paid o) a))
    by apply apply_seller_update_advance.
  assert (Ht1 : total_amount o1 = total_amount o).
  { unfold o1.
    by destruct (apply_seller_update_frame today d a o) as (_ & _ & _ & _ & -> & _). }
  split; apply Hsettle.
  - rewrite Ht1, Hd1. destruct d; simpl; lia.
  - rewrite Ha1. destruct a; simpl; lia.
  - simpl. rewrite Ht1, Hd1. lia.
  - simpl. rewrite Ha1. lia.
Qed.

(** ** After a deletion *)

Lemma get_user_by_slug_or_404_Err slugify db slug role e :
  get_user_by_slug_or_404 slugify db slug role = Err e → e = NotFoundError.
Proof.
  unfold get_user_by_slug_or_404. destruct (find _ _); [done|]. by intros [= <-].
Qed.

Lemma get_order_or_404_missing db oid party u :
  orders db !! oid = None → get_order_or_404 db oid party u = Err NotFoundError.
Proof. intros H. unfold get_order_or_404. by rewrite H. Qed.

Section Missing.

Variables (slugify : string → string) (db : DB) (oid : string).
Hypothesis Hmissing : orders db !! oid = None.

Lemma UpdateServiceOrderView_update_missing today u slug f :
  UpdateServiceOrderView_update slugify today db u slug oid f = Err NotFoundError.
Proof.
  unfold UpdateServiceOrderView_update, UpdateServiceOrderView_get_object.
  destruct (get_user_by_slug_or_404 slugify db slug Customer) as [b|e] eqn:E; simpl.
  - by rewrite get_order_or_404_missing.
  - by rewrite (get_user_by_slug_or_404_Err _ _ _ _ _ E).
Qed.

Lemma DeleteServiceOrderView_destroy_missing u slug :
  DeleteServiceOrderView_destroy slugify db u slug oid = Err NotFoundError.
Proof.
  unfold DeleteServiceOrderView_destroy, DeleteServiceOrderView_get_object.
  destruct (get_user_by_slug_or_404 slugify db slug Customer) as [b|e] eqn:E; simpl.
  - by rewrite get_order_or_404_missing.
  - by rewrite (get_user_by_slug_or_404_Err _ _ _ _ _ E).
Qed.

Lemma AcceptOrderView_update_missing u slug :
  AcceptOrderView_update slugify db u slug oid = Err NotFoundError.
Proof.
  unfold AcceptOrderView_update.
  destruct (get_user_by_slug_or_404 slugify db slug Seller) as [b|e] eqn:E; simpl.
  - by rewrite get_order_or_404_missing.
  - by rewrite (get_user_by_slug_or_404_Err _ _ _ _ _ E).
Qed.

Lemma SellerUpdateServiceOrderView_update_missing today u slug data :
  SellerUpdateServiceOrderView_update slugify today db u slug oid data
  = Err NotFoundError.
Proof.
  unfold SellerUpdateServiceOrderView_update,
    SellerUpdateServiceOrderView_get_object.
  destruct (get_user_by_slug_or_404 slugify db slug Seller) as [b|e] eqn:E; simpl.
  - by rewrite get_order_or_404_missing.
  - by rewrite (get_user_by_slug_or_404_Err _ _ _ _ _ E).
Qed.

End Missing.

(** X16. Once the seller's delete has gone through, the row is gone, the
    other rows are as they were, and every later update, delete, acceptance
    or seller update addressed to that key is answered [NotFoundError],
    whoever sends it. *)
Theorem deleted_order_is_not_found :
  ∀ slugify db u slug oid db',
    keys_ok db →
    DeleteServiceOrderView_destroy slugify db u slug oid = Ok (db', RespNoContent) →
    orders db' !! oid = None
    ∧ (∀ k, k ≠ oid → orders db' !! k = orders db !! k)
    ∧ (∀ today u2 slug2 f,
         UpdateServiceOrderView_update slugify today db' u2 slug2 oid f
         = Err NotFoundError)
    ∧ (∀ u2 slug2,
         DeleteServiceOrderView_destroy slugify db' u2 slug2 oid = Err NotFoundError)
    ∧ (∀ u2 slug2,
         AcceptOrderView_update slugify db' u2 slug2 oid = Err NotFoundError)
    ∧ (∀ today u2 slug2 data,
         SellerUpdateServiceOrderView_update slugify today db' u2 slug2 oid data
         = Err NotFoundError).
Proof.
  intros slugify db u slug oid db' Hk H.
  apply DeleteServiceOrderView_destroy_Ok in H as (o & Hget & Hcase).
  apply DeleteServiceOrderView_get_object_Ok in Hget as (Ho & _).
  pose proof (Hk _ _ Ho) as Hid.
  destruct Hcase as [(_ & _ & _ & Hr)|(_ & _ & -> & _)]; [done|].
  assert (orders (delete_order o db) !! oid = None) as Hgone.
  { rewrite delete_order_lookup. by rewrite decide_True. }
  split_and!; try done.
  - intros k Hne. rewrite delete_order_lookup. rewrite decide_False; [done|congruence].
  - intros. by apply UpdateServiceOrderView_update_missing.
  - intros. by apply DeleteServiceOrderView_destroy_missing.
  - intros. by apply AcceptOrderView_update_missing.
  - intros. by apply SellerUpdateServiceOrderView_update_missing.
Qed.

Lemma deleted_order_is_not_found_witness :
  ∃ db',
    keys_ok booked_db
    ∧ DeleteServiceOrderView_destroy plain_slugify booked_db bob "alice-khan"
        "ORD00001" = Ok (db', RespNoContent)
    ∧ orders db' !! "ORD00001" = None
    ∧ UpdateServiceOrderView_update plain_slugify 739002 db' alice "alice-khan"
        "ORD00001" (Value "completed") = Err NotFoundError
    ∧ AcceptOrderView_update plain_slugify db' bob "bob-roy" "ORD00001"
      = Err NotFoundError.
Proof.
  assert (keys_ok booked_db) as Hk by (apply run_db_ok, sample_db_ok).
  destruct (DeleteServiceOrderView_destroy plain_slugify booked_db bob "alice-khan"
              "ORD00001") as [[db' r]|e] eqn:E; [|vm_compute in E; discriminate].
  assert (r = RespNoContent) as ->.
  { vm_compute in E. injection E as _ <-. reflexivity. }
  destruct (deleted_order_is_not_found plain_slugify booked_db bob "alice-khan"
              "ORD00001" db' Hk E) as (Hg & _ & Hu & _ & Ha & _).
  exists db'. split; [exact Hk|]. split; [reflexivity|]. split; [exact Hg|].
  split; [apply Hu|apply Ha].
Defined.

(** ** The catalogue after creation *)

Section SameTables.

Variables (slugify : string → string) (db1 db2 : DB).
Hypothesis Husers : users db1 = users db2.
Hypothesis Horders : orders db1 = orders db2.

Lemma get_user_by_slug_or_404_same slug role :
  get_user_by_slug_or_404 slugify db1 slug role
  = get_user_by_slug_or_404 slugify db2 slug role.
Proof. unfold get_user_by_slug_or_404. by rewrite Husers. Qed.

Lemma get_order_or_404_same oid party u :
  get_order_or_404 db1 oid party u = get_order_or_404 db2 oid party u.
Proof. unfold get_order_or_404. by rewrite Horders. Qed.

Lemma dispatch_same req :
  addressed req ≠ None →
  match dispatch slugify db1 req, dispatch slugify db2 req with
  | Some r1, Some r2 => same_answer r1 r2
  | _, _ => False
  end.
Proof.
  intros Hreq. destruct req; simpl in *; [done|..].
  - unfold UpdateServiceOrderView_update, UpdateServiceOrderView_get_object.
    rewrite get_user_by_slug_or_404_same.
    destruct (get_user_by_slug_or_404 slugify db2 buyer_slug Customer) as [b|];
      simpl; [|done].
    rewrite get_order_or_404_same.
    destruct (get_order_or_404 db2 oid buyer b) as [o|]; simpl; [|done].
    destruct (bool_decide (buyer o = user_id request_user)); simpl; [|done].
    destruct (bool_decide (status o = pending ∨ status o = accepted)); simpl;
      [|done].
    destruct (run_buyer_status status_field) as [[[]|]|]; simpl; try done.
    + split; [done|]. unfold save, set_orders; simpl; by rewrite Horders, Husers.
    + split; [done|]. unfold save, set_orders; simpl; by rewrite Horders, Husers.
  - unfold DeleteServiceOrderView_destroy, DeleteServiceOrderView_get_object.
    rewrite get_user_by_slug_or_404_same.
    destruct (get_user_by_slug_or_404 slugify db2 buyer_slug Customer) as [b|];
      simpl; [|done].
    rewrite get_order_or_404_same.
    destruct (get_order_or_404 db2 oid buyer b) as [o|] eqn:Eo; simpl; [|done].
    destruct (bool_decide (buyer o ≠ user_id request_user
                           ∧ seller o ≠ user_id request_user)); simpl; [done|].
    destruct (decide (buyer o = user_id request_user ∧ status o = pending)); simpl;
      [split; [done|]; unfold save, set_orders; simpl; by rewrite Horders, Husers|].
    destruct (decide (seller o = user_id request_user)); simpl; [|done].
    split; [done|]. unfold delete_order, set_orders; simpl; by rewrite Horders, Husers.
  - unfold AcceptOrderView_update.
    rewrite get_user_by_slug_or_404_same.
    destruct (get_user_by_slug_or_404 slugify db2 seller_slug Seller) as [b|];
      simpl; [|done].
    rewrite get_order_or_404_same.
    destruct (get_order_or_404 db2 oid seller b) as [o|]; simpl; [|done].
    destruct (bool_decide (seller o = user_id request_user)); simpl; [|done].
    split; [done|]. unfold save, set_orders; simpl; by rewrite Horders, Husers.
  - unfold SellerUpdateServiceOrderView_update,
      SellerUpdateServiceOrderView_get_object.
    rewrite get_user_by_slug_or_404_same.
    destruct (get_user_by_slug_or_404 slugify db2 seller_slug Seller) as [b|];
      simpl; [|done].
    rewrite get_order_or_404_same.
    destruct (get_order_or_404 db2 oid seller b) as [o|]; simpl; [|done].
    destruct (bool_decide (seller o = user_id request_user)); simpl; [|done].
    destruct (bool_decide (status o = cancelled)); simpl; [done|].
    destruct (run_seller_fields data) as [vd|]; simpl; [|done].
    destruct (seller_validate request_user o vd) as [vd'|]; simpl; [|done].
    split; [done|]. unfold save, set_orders; simpl; by rewrite Horders, Husers.
Qed.

End SameTables.

(** X17. Orders are not re-priced: an update, delete, acceptance or seller
    update does not read the services and the line items. Two databases with
    the same users, events and orders that differ in services, prices and
    availability are left with the same users, events and orders, and the
    request fails in both with the same error or succeeds in both with the
    same order in the answer; in particular the total stored at creation
    stands when a price changes. *)
Theorem orders_ignore_catalogue_changes :
  ∀ slugify db1 db2 req,
    users db1 = users db2 →
    events db1 = events db2 →
    orders db1 = orders db2 →
    addressed req ≠ None →
    orders (step slugify db1 req) = orders (step slugify db2 req)
    ∧ users (step slugify db1 req) = users (step slugify db2 req)
    ∧ events (step slugify db1 req) = events (step slugify db2 req)
    ∧ match dispatch slugify db1 req, dispatch slugify db2 req with
      | Some (Ok (_, a1)), Some (Ok (_, a2)) => a1 = a2
      | Some (Err e1), Some (Err e2) => e1 = e2
      | _, _ => False
      end.
Proof.
  intros slugify db1 db2 req Hu He Ho Hreq.
  pose proof (dispatch_same slugify db1 db2 Hu Ho req Hreq) as H.
  assert (events (step slugify db1 req) = events (step slugify db2 req)) as Hev.
  { destruct (step_static slugify db1 req) as (_ & -> & _).
    destruct (step_static slugify db2 req) as (_ & -> & _). done. }
  split; [|split; [|split; [exact Hev|]]]; clear Hev; unfold step;
    destruct (dispatch slugify db1 req) as [[[d1 a1]|e1]|],
      (dispatch slugify db2 req) as [[[d2 a2]|e2]|]; simpl in H; try done;
    by destruct H as (? & ? & ?).
Qed.

Lemma orders_ignore_catalogue_changes_witness :
  users booked_db = users repriced_db
  ∧ events booked_db = events repriced_db
  ∧ orders booked_db = orders repriced_db
  ∧ service_details booked_db ≠ service_details repriced_db
  ∧ orders (step plain_slugify booked_db
              (SellerUpdate 739001 bob "bob-roy" "ORD00001"
                 (set_data_advance 50000 no_update)))
    = orders (step plain_slugify repriced_db
                (SellerUpdate 739001 bob "bob-roy" "ORD00001"
                   (set_data_advance 50000 no_update)))
  ∧ (is_fully_paid <$>
       orders (step plain_slugify repriced_db
                 (SellerUpdate 739001 bob "bob-roy" "ORD00001"
                    (set_data_advance 50000 no_update))) !! "ORD00001")
    = Some true.
Proof.
  assert (users booked_db = users repriced_db) as Hu by reflexivity.
  assert (events booked_db = events repriced_db) as He by reflexivity.
  assert (orders booked_db = orders repriced_db) as Ho by reflexivity.
  split; [exact Hu|]. split; [exact He|]. split; [exact Ho|].
  split; [discriminate|].
  split.
  - apply (orders_ignore_catalogue_changes plain_slugify booked_db repriced_db
             (SellerUpdate 739001 bob "bob-roy" "ORD00001"
                (set_data_advance 50000 no_update)) Hu He Ho).
    discriminate.
  - vm_compute. reflexivity.
Defined.

(** ** The buyer's update *)

Lemma UpdateServiceOrderView_update_completed slugify today db u slug oid o :
  UpdateServiceOrderView_get_object slugify db u slug oid = Ok o →
  UpdateServiceOrderView_update slugify today db u slug oid (Value "completed")
  = Ok (save (completed_order today o) db, RespOrder (completed_order today o)).
Proof. intros Hget. unfold UpdateServiceOrderView_update. by rewrite Hget. Qed.

(** X18. The buyer's update writes nothing but a closing status: a success
    means the payload asked for "cancelled" or "completed" and the row
    written has that status; any other payload, the status key missing or
    null included, is answered [ValidationError] once the order has passed
    the checks of [get_object], whose own errors come first. *)
Theorem buyer_update_closes_or_fails :
  (∀ slugify today db u slug oid f db' r,
     UpdateServiceOrderView_update slugify today db u slug oid f = Ok (db', r) →
     ∃ o', r = RespOrder o' ∧ db' = save o' db
           ∧ ((f = Value "cancelled" ∧ status o' = cancelled)
              ∨ (f = Value "completed" ∧ status o' = completed)))
  ∧ (∀ slugify today db u slug oid f o,
       UpdateServiceOrderView_get_object slugify db u slug oid = Ok o →
       f ≠ Value "cancelled" →
       f ≠ Value "completed" →
       UpdateServiceOrderView_update slugify today db u slug oid f
       = Err ValidationError)
  ∧ (∀ slugify today db u slug oid f e,
       UpdateServiceOrderView_get_object slugify db u slug oid = Err e →
       UpdateServiceOrderView_update slugify today db u slug oid f = Err e).
Proof.
  split_and!.
  - intros * H. apply UpdateServiceOrderView_update_Ok in H
      as (o & o1 & _ & -> & -> & Hcase).
    exists o1. split; [done|]. split; [done|].
    destruct Hcase as [[-> ->]|[-> ->]]; [by left|right].
    split; [done|]. by destruct (completed_order_frame today o) as (_ & _ & _ & -> & _).
  - intros * Hget Hc1 Hc2. unfold UpdateServiceOrderView_update.
    rewrite Hget. simpl.
    destruct f as [| |s]; simpl; [done|done|].
    destruct (decide (s = "cancelled")) as [->|]; [done|].
    destruct (decide (s = "completed")) as [->|]; done.
  - intros * Hget. unfold UpdateServiceOrderView_update. by rewrite Hget.
Qed.

Lemma buyer_update_closes_or_fails_witness :
  ∃ o,
    UpdateServiceOrderView_get_object plain_slugify booked_db alice "alice-khan"
      "ORD00001" = Ok o
    ∧ UpdateServiceOrderView_update plain_slugify 739001 booked_db alice
        "alice-khan" "ORD00001" (Value "accepted") = Err ValidationError
    ∧ UpdateServiceOrderView_update plain_slugify 739001 booked_db alice
        "alice-khan" "ORD00001" Omitted = Err ValidationError.
Proof.
  destruct (UpdateServiceOrderView_get_object plain_slugify booked_db alice
              "alice-khan" "ORD00001") as [o|e] eqn:E;
    [|vm_compute in E; discriminate].
  exists o. split; [reflexivity|].
  destruct buyer_update_closes_or_fails as (_ & Hv & _).
  split; apply (Hv _ _ _ _ _ _ _ o E); discriminate.
Defined.

(** X19. In a ledger that started without orders, with catalogue prices
    not negative, completing an order leaves [is_fully_paid] true exactly
    when [remaining_amount] reads zero, as a seller update does. *)
Theorem completion_flag_agrees_with_balance :
  ∀ slugify today db0 reqs u slug oid o,
    catalog_ok db0 →
    orders db0 = ∅ →
    UpdateServiceOrderView_get_object slugify (run slugify db0 reqs) u slug oid
      = Ok o →
    ∃ o',
      UpdateServiceOrderView_update slugify today (run slugify db0 reqs) u slug oid
        (Value "completed")
        = Ok (save o' (run slugify db0 reqs), RespOrder o')
      ∧ status o' = completed
      ∧ (is_fully_paid o' = true ↔ remaining_amount o' = 0).
Proof.
  intros * Hc He Hget. exists (completed_order today o).
  split; [by apply UpdateServiceOrderView_update_completed|].
  destruct (completed_order_frame today o)
    as (_ & _ & _ & Hst & Ht & Hd & Ha & _).
  split; [done|].
  apply UpdateServiceOrderView_get_object_Ok in Hget as (Hl & _).
  destruct (run_db_ok slugify db0 reqs (db_ok_no_orders db0 Hc He)) as (_ & _ & Hok).
  destruct (Hok _ _ Hl) as (_ & Hdb & Hab & Hp).
  assert (remaining_amount (completed_order today o) = remaining_amount o) as ->.
  { unfold remaining_amount. by rewrite Ht, Hd, Ha. }
  rewrite <- (order_ok_paid_iff_no_balance o Hdb Hab).
  destruct (completed_order_payment today o) as [Hy Hn].
  split.
  - intros Hpaid. destruct (decide (fully_paid_rule o)) as [|Hnr]; [done|].
    destruct (Hn Hnr) as [Heq _]. rewrite Heq in Hpaid. by apply Hp.
  - intros Hr. by destruct (Hy Hr).
Qed.

Lemma completion_flag_agrees_with_balance_witness :
  ∃ o o',
    catalog_ok sample_db
    ∧ orders sample_db = ∅
    ∧ UpdateServiceOrderView_get_object plain_slugify paid_db alice "alice-khan"
        "ORD00001" = Ok o
    ∧ UpdateServiceOrderView_update plain_slugify 739006 paid_db alice
        "alice-khan" "ORD00001" (Value "completed")
      = Ok (save o' paid_db, RespOrder o')
    ∧ is_fully_paid o' = true
    ∧ remaining_amount o' = 0.
Proof.
  assert (catalog_ok sample_db) as Hc by apply sample_db_ok.
  destruct (UpdateServiceOrderView_get_object plain_slugify paid_db alice
              "alice-khan" "ORD00001") as [o|e] eqn:E;
    [|vm_compute in E; discriminate].
  destruct (completion_flag_agrees_with_balance plain_slugify 739006 sample_db
              [ sample_create;
                SellerUpdate 739001 bob "bob-roy" "ORD00001"
                  (set_data_advance 50000 no_update) ]
              alice "alice-khan" "ORD00001" o Hc eq_refl E)
    as (o' & Hv & _ & Hiff).
  assert (is_fully_paid o' = true) as Hp.
  { change (run plain_slugify sample_db
              [ sample_create;
                SellerUpdate 739001 bob "bob-roy" "ORD00001"
                  (set_data_advance 50000 no_update) ]) with paid_db in Hv.
    rewrite (UpdateServiceOrderView_update_completed _ _ _ _ _ _ _ E) in Hv.
    injection Hv as _ <-. vm_compute in E. injection E as <-. reflexivity. }
  exists o, o'. split; [exact Hc|]. split; [reflexivity|]. split; [reflexivity|].
  split; [exact Hv|]. split; [exact Hp|]. apply Hiff, Hp.
Defined.

(** ** A token that matches more than one line item *)

Lemma process_selected_services_ambiguous db ev tokens :
  ¬ unambiguous db ev tokens →
  ∀ total lines,
    process_selected_services db ev tokens total lines = Err MultipleObjectsReturned.
Proof.
  unfold unambiguous.
  induction tokens as [|t ts IH]; intros Hn total lines; simpl.
  - destruct Hn. constructor.
  - destruct (get_service_detail db ev t) as [d| |] eqn:E; [| |done].
    + apply IH. intros Hts. apply Hn. constructor; [by rewrite E|done].
    + apply IH. intros Hts. apply Hn. constructor; [by rewrite E|done].
Qed.

(** X20. When a requested token matches two or more available line items
    of the event, the lookup raises and the creation ends with
    [MultipleObjectsReturned]: no order is created, whatever the other
    tokens resolve to. A token is such a token exactly when at least two
    rows of the catalogue match it. *)
Theorem create_ambiguous_token_raises :
  (∀ slugify db u slug eid data new_id b ev,
     get_user_by_slug_or_404 slugify db slug Customer = Ok b →
     user_id u = user_id b →
     get_event_or_404 db eid = Ok ev →
     ¬ unambiguous db ev (c_selected_services data) →
     CreateServiceOrderView_create slugify db u slug eid (Some data) new_id
     = Err MultipleObjectsReturned)
  ∧ (∀ db ev token,
       get_service_detail db ev token = MultipleObjects
       ↔ (2 <= length (List.filter (detail_matches db ev token)
                         (service_details db)))%nat).
Proof.
  split.
  - intros * Hb Hu He Hn. unfold CreateServiceOrderView_create.
    rewrite Hb. simpl. rewrite bool_decide_eq_true_2 by done. simpl.
    rewrite He. simpl.
    by rewrite (process_selected_services_ambiguous _ _ _ Hn).
  - intros db ev token. unfold get_service_detail, objects_get.
    destruct (List.filter _ _) as [|d0 [|d1 l]]; simpl; split; try done; lia.
Qed.

Lemma create_ambiguous_token_raises_witness :
  get_user_by_slug_or_404 plain_slugify ambiguous_db "alice-khan" Customer = Ok alice
  ∧ get_event_or_404 ambiguous_db (Some "EVT00001") = Ok sample_event
  ∧ ¬ unambiguous ambiguous_db sample_event ["photography"; "catering"]
  ∧ CreateServiceOrderView_create plain_slugify ambiguous_db alice "alice-khan"
      (Some "EVT00001")
      (Some (mkCreateValidatedData 739000 64800 "Dhaka" ["photography"; "catering"]))
      "ORD00001"
    = Err MultipleObjectsReturned.
Proof.
  assert (get_user_by_slug_or_404 plain_slugify ambiguous_db "alice-khan" Customer
          = Ok alice) as Hb by reflexivity.
  assert (get_event_or_404 ambiguous_db (Some "EVT00001") = Ok sample_event) as He
    by reflexivity.
  assert (¬ unambiguous ambiguous_db sample_event ["photography"; "catering"]) as Hn.
  { intros H. apply Forall_cons in H as [_ H]. apply Forall_cons in H as [H _].
    apply H. vm_compute. reflexivity. }
  split; [exact Hb|]. split; [exact He|]. split; [exact Hn|].
  exact (proj1 create_ambiguous_token_raises plain_slugify ambiguous_db alice
           "alice-khan" (Some "EVT00001")
           (mkCreateValidatedData 739000 64800 "Dhaka" ["photography"; "catering"])
           "ORD00001" alice sample_event Hb eq_refl He Hn).
Defined.
